(** * askpablos_api: the request pipeline of the proxy client

    A shallow embedding of
      - askpablos_api/validators.py  (ParameterValidator),
      - askpablos_api/utils.py       (build_proxy_options),
      - askpablos_api/core.py        (AskPablos.get),
    together with the properties the specification states about them.

    Python values are embedded as the inductive type [PyVal]; a function
    that may raise returns a [result]; keyword dictionaries ([**kwargs], the
    options sent to the proxy) are [gmap string PyVal]; what [AskPablos.get]
    does to the outside world is the list of [event]s it emits.  The limits
    of the interpreter that the text of a value depends on are gathered in
    an [Interpreter]. *)

From Stdlib Require Import ZArith String Ascii Strings.Byte List Lia.
From Stdlib Require Import Floats.SpecFloat Numbers.DecimalString.
From stdpp Require Import base gmap strings list.

Local Open Scope string_scope.
#[local] Set Warnings "-register-all".

(** ** Python values *)

(** The values a caller can pass to the client: [None], booleans, integers
    of any size, floats (IEEE 754 doubles, as the Standard Library's
    [spec_float]), strings, lists and dictionaries.  A string is a sequence
    of code points below 256.  A dictionary keeps its items in insertion
    order and may have keys of any type, which is what [validate_headers]
    and [validate_params] inspect. *)
Inductive PyVal : Type :=
  | PyNone
  | PyBool (b : bool)
  | PyInt (n : Z)
  | PyFloat (f : spec_float)
  | PyStr (s : string)
  | PyList (items : list PyVal)
  | PyDict (items : list (PyVal * PyVal)).

(** ** Exceptions and results *)

(** The exception classes at work: Python's [ValueError], raised by every
    validator and by the guard of [AskPablos.get]; [TypeError], raised when a
    call cannot be bound to a signature; [RecursionError], raised by the
    interpreter when calls nest too deep; and the four classes imported from
    [askpablos_api.exceptions]. *)
Inductive exception_class : Type :=
  | ValueError
  | TypeError
  | RecursionError
  | AskPablosError
  | AuthenticationError
  | APIConnectionError
  | ResponseError.


(** Modelled from the spec: [askpablos_api/exceptions.py] is not among the
    sources.  Section 7 gives the package's error kinds "a common root", which
    [__init__.py] and [core.py] import as [AskPablosError]; the exceptions
    of Python itself stand outside that family. *)
Definition is_AskPablosError (c : exception_class) : bool :=
  match c with
  | AskPablosError | AuthenticationError | APIConnectionError
  | ResponseError => true
  | ValueError | TypeError | RecursionError => false
  end.

(** An exception: its class and the text that [str(e)] gives. *)
Record exn : Type := mk_exn { exn_class : exception_class; exn_msg : string }.

Inductive result (A : Type) : Type :=
  | Return (a : A)
  | Raise (e : exn).
Arguments Return {A} a.
Arguments Raise {A} e.

(** Sequencing: the first exception raised ends the computation. *)
#[global] Instance result_ret : MRet result := @Return.

#[global] Instance result_bind : MBind result :=
  fun A B (k : A → result B) (r : result A) =>
    match r with
    | Return a => k a
    | Raise e => Raise e
    end.

(** The results of a list of computations run in order, up to the first
    that raises. *)
Fixpoint sequence {A : Type} (rs : list (result A)) : result (list A) :=
  match rs with
  | [] => Return []
  | r :: rs' => x ← r; xs ← sequence rs'; Return (x :: xs)
  end.

Definition raise_ValueError {A : Type} (msg : string) : result A :=
  Raise (mk_exn ValueError msg).

Definition raises {A : Type} (r : result A) : Prop := ∃ e, r = Raise e.

Definition raises_with {A : Type} (c : exception_class) (msg : string)
    (r : result A) : Prop :=
  r = Raise (mk_exn c msg).


Module Builtins.

(** [bool(v)]: the truth value the [if] and [not] of the source test. *)
Definition truthy (v : PyVal) : bool :=
  match v with
  | PyNone => false
  | PyBool b => b
  | PyInt n => negb (n =? 0)%Z
  | PyFloat (S754_zero _) => false
  | PyFloat _ => true
  | PyStr s => negb (String.eqb s "")
  | PyList l => match l with [] => false | _ => true end
  | PyDict d => match d with [] => false | _ => true end
  end.

(** [isinstance(v, str)] and [isinstance(v, int)]; [bool] is a subclass of
    [int]. *)
Definition isinstance_str (v : PyVal) : bool :=
  match v with PyStr _ => true | _ => false end.

Definition isinstance_int (v : PyVal) : bool :=
  match v with PyBool _ | PyInt _ => true | _ => false end.

(** The integer an [int] instance stands for in arithmetic and in
    comparisons: [True] is 1 and [False] is 0. *)
Definition int_value (v : PyVal) : option Z :=
  match v with
  | PyBool b => Some (if b then 1 else 0)%Z
  | PyInt n => Some n
  | _ => None
  end.

(** Exact comparison of a float with an integer, as [==] does it. *)
Definition float_eq_int (f : spec_float) (n : Z) : bool :=
  match f with
  | S754_zero _ => (n =? 0)%Z
  | S754_infinity _ | S754_nan => false
  | S754_finite s m e =>
      let mag := Z.pos m in
      let sgn := (if s then -1 else 1)%Z in
      if (0 <=? e)%Z then (n =? sgn * (mag * 2 ^ e))%Z
      else ((mag mod 2 ^ (- e) =? 0) && (n =? sgn * (mag / 2 ^ (- e))))%Z
  end.

(** [a == b].  Numbers compare by value across [bool], [int] and [float];
    values of unrelated types are unequal; lists compare item by item and
    dictionaries entry by entry whatever the order.  (CPython also takes
    two items that are the same object for equal, which this embedding,
    having no object identity, leaves out; it matters only for a NaN held
    in a container.  In the sources one side of every comparison is a string
    or a boolean, so no comparison there goes into a list or a
    dictionary.) *)
Fixpoint py_eq (a b : PyVal) {struct a} : bool :=
  match a, b with
  | PyNone, PyNone => true
  | PyBool x, PyBool y => Bool.eqb x y
  | PyBool x, PyInt n | PyInt n, PyBool x => (n =? (if x then 1 else 0))%Z
  | PyBool x, PyFloat f | PyFloat f, PyBool x =>
      float_eq_int f (if x then 1 else 0)%Z
  | PyInt n, PyInt m => (n =? m)%Z
  | PyInt n, PyFloat f | PyFloat f, PyInt n => float_eq_int f n
  | PyFloat f, PyFloat g => SFeqb f g
  | PyStr s, PyStr t => String.eqb s t
  | PyList xs, PyList ys =>
      (fix items_eq (xs ys : list PyVal) : bool :=
         match xs, ys with
         | [], [] => true
         | x :: xs', y :: ys' => py_eq x y && items_eq xs' ys'
         | _, _ => false
         end) xs ys
  | PyDict xs, PyDict ys =>
      (length xs =? length ys)%nat &&
      (fix entries_in (xs : list (PyVal * PyVal)) : bool :=
         match xs with
         | [] => true
         | (k, v) :: xs' =>
             existsb (fun e => py_eq k (fst e) && py_eq v (snd e)) ys
             && entries_in xs'
         end) xs
  | _, _ => false
  end.

Definition py_ne (a b : PyVal) : bool := negb (py_eq a b).

(** [x in l] for a list [l]. *)
Definition py_in (x : PyVal) (l : list PyVal) : bool :=
  existsb (fun item => py_eq item x) l.

(** [s in l] for a list of strings and a value known to be a string. *)
Definition str_in (s : string) (l : list string) : bool :=
  existsb (String.eqb s) l.

(** *** Text *)

Definition dquote : ascii := ascii_of_nat 34.
Definition squote : ascii := "'"%char.
Definition backslash : ascii := "\"%char.

Definition hex_digit (n : N) : ascii :=
  if (n <? 10)%N then ascii_of_N (48 + n) else ascii_of_N (87 + n).

(** A character as [repr] writes it inside a literal quoted by [quote]. *)
Definition repr_char (quote c : ascii) : string :=
  let n := N_of_ascii c in
  if Ascii.eqb c quote || Ascii.eqb c backslash then String backslash (String c "")
  else if (n =? 9)%N then "\t"
  else if (n =? 10)%N then "\n"
  else if (n =? 13)%N then "\r"
  else if (n <? 32)%N || (n =? 127)%N
          || ((128 <=? n)%N && (n <=? 160)%N) || (n =? 173)%N
       then "\x" +:+ String (hex_digit (n / 16)) (String (hex_digit (n mod 16)) "")
  else String c "".

Fixpoint contains_char (c : ascii) (s : string) : bool :=
  match s with
  | EmptyString => false
  | String d s' => Ascii.eqb c d || contains_char c s'
  end.

Fixpoint repr_chars (quote : ascii) (s : string) : string :=
  match s with
  | EmptyString => ""
  | String c s' => repr_char quote c +:+ repr_chars quote s'
  end.

(** [repr(s)] of a string: single quotes, unless the string holds a single
    quote and no double quote. *)
Definition repr_str (s : string) : string :=
  let quote :=
    if contains_char squote s && negb (contains_char dquote s)
    then dquote else squote in
  String quote (repr_chars quote s +:+ String quote "").

(** The decimal digits of an integer, with a leading minus sign. *)
Definition str_int (n : Z) : string := NilZero.string_of_int (Z.to_int n).

Definition str_nat (n : nat) : string := str_int (Z.of_nat n).

Definition str_bool (b : bool) : string := if b then "True" else "False".

(** What the text of a value depends on besides the value: the text of a
    float (the shortest decimal text that reads back as the same double),
    which the embedding takes as given; the number of calls of [repr] that
    can still nest inside a first one before the interpreter's recursion
    limit is reached; and the greatest number of digits an integer may have
    when it is turned into text ([sys.get_int_max_str_digits()]: 4300
    unless set otherwise, and then 0, for no limit, or at least 640;
    CPython before 3.11 has no limit). *)
Record Interpreter : Type := mk_Interpreter {
  float_repr : spec_float → string;
  repr_depth : nat;
  int_max_str_digits : nat
}.

(** An integer has more digits than [limit] allows. *)
Definition exceeds_digit_limit (limit : nat) (n : Z) : bool :=
  negb (limit =? 0)%nat && (10 ^ Z.of_nat limit <=? Z.abs n)%Z.

Definition digit_limit_error (limit : nat) : exn :=
  mk_exn ValueError
    ("Exceeds the limit (" +:+ str_nat limit
     +:+ " digits) for integer string conversion; "
     +:+ "use sys.set_int_max_str_digits() to increase the limit").

Definition recursion_error : exn :=
  mk_exn RecursionError
    "maximum recursion depth exceeded while getting the repr of an object".

Section Text.

Variable py : Interpreter.

(** [repr(v)] where [levels] calls of [repr] can still nest, this one
    included: each value written takes one level while its items are
    written.  Where no level is left the call raises [RecursionError]; an
    integer with too many digits raises [ValueError]; the items are written
    in order, so the first failure is the one raised. *)
Fixpoint py_repr (levels : nat) (v : PyVal) {struct v} : result string :=
  match levels with
  | O => Raise recursion_error
  | S inner =>
      match v with
      | PyNone => Return "None"
      | PyBool b => Return (str_bool b)
      | PyInt n =>
          if exceeds_digit_limit (int_max_str_digits py) n
          then Raise (digit_limit_error (int_max_str_digits py))
          else Return (str_int n)
      | PyFloat f => Return (float_repr py f)
      | PyStr s => Return (repr_str s)
      | PyList l =>
          texts ← sequence (List.map (py_repr inner) l);
          Return ("[" +:+ String.concat ", " texts +:+ "]")
      | PyDict items =>
          texts ← sequence
                    (List.map
                       (fun e =>
                          key ← py_repr inner (fst e);
                          value ← py_repr inner (snd e);
                          Return (key +:+ ": " +:+ value))
                       items);
          Return ("{" +:+ String.concat ", " texts +:+ "}")
      end
  end.

(** [str(v)], which is what an f-string interpolates: a string as it is,
    any other value as [repr] writes it. *)
Definition py_str (v : PyVal) : result string :=
  match v with
  | PyStr s => Return s
  | _ => py_repr (S (repr_depth py)) v
  end.

End Text.

(** An interpreter with the default limits, to run the functions with; its
    text for a float is a stand-in, for values that hold no float. *)
Definition default_interpreter : Interpreter :=
  mk_Interpreter (fun _ => "?") 1000 4300.

(** [str(type(v))]. *)
Definition type_str (v : PyVal) : string :=
  match v with
  | PyNone => "<class 'NoneType'>"
  | PyBool _ => "<class 'bool'>"
  | PyInt _ => "<class 'int'>"
  | PyFloat _ => "<class 'float'>"
  | PyStr _ => "<class 'str'>"
  | PyList _ => "<class 'list'>"
  | PyDict _ => "<class 'dict'>"
  end.

(** [c.upper()] of one character.  Sharp s becomes two letters.  The micro
    sign and y with diaeresis have their capitals above code point 255 and
    are left as they are: the result is not an ASCII string either way. *)
Definition upper_char (c : ascii) : string :=
  let n := N_of_ascii c in
  if ((97 <=? n) && (n <=? 122))%N then String (ascii_of_N (n - 32)) ""
  else if (n =? 223)%N then "SS"
  else if ((224 <=? n) && (n <=? 254) && negb (n =? 247))%N
       then String (ascii_of_N (n - 32)) ""
  else String c "".

(** [s.upper()]. *)
Fixpoint upper (s : string) : string :=
  match s with
  | EmptyString => ""
  | String c s' => upper_char c +:+ upper s'
  end.

(** [s.startswith(p)]. *)
Definition startswith (s p : string) : bool := String.prefix p s.

(** [sep.join(l)]. *)
Definition join (sep : string) (l : list string) : string := String.concat sep l.


End Builtins.
Export Builtins.

(** ** askpablos_api/validators.py *)

Module ParameterValidator.

Section Validators.

Variable py : Interpreter.

(** [validate_browser_dependencies(browser, wait_for_load, screenshot,
    js_strategy)]: the browser-dependent features are accepted only
    together with [browser].  The f-string for the strategy calls
    [str(js_strategy)]; an exception raised there leaves the function. *)
Definition validate_browser_dependencies
    (browser wait_for_load screenshot js_strategy : PyVal) : result unit :=
  if truthy browser then Return tt
  else
    let invalid_features : list string := [] in
    let invalid_features :=
      if truthy wait_for_load
      then (invalid_features ++ ["wait_for_load=True"])%list
      else invalid_features in
    let invalid_features :=
      if truthy screenshot
      then (invalid_features ++ ["screenshot=True"])%list
      else invalid_features in
    invalid_features ←
      (if py_ne js_strategy (PyStr "DEFAULT")
       then text ← py_str py js_strategy;
            Return (invalid_features ++ ["js_strategy=" +:+ text])%list
       else Return invalid_features);
    match invalid_features with
    | [] => Return tt
    | _ =>
        let features_str := join ", " invalid_features in
        raise_ValueError
          ("browser=True is required for these actions: " +:+ features_str)
    end.

(** [validate_url(url)].  The branch for a value that is no string is the
    test [not isinstance(url, str)]. *)
Definition validate_url (url : PyVal) : result unit :=
  if negb (truthy url) then
    raise_ValueError "URL is required and cannot be empty"
  else
    match url with
    | PyStr u =>
        if negb (startswith u "http://" || startswith u "https://") then
          raise_ValueError "URL must start with 'http://' or 'https://'"
        else Return tt
    | _ => raise_ValueError "URL must be a string"
    end.

(** [validate_timeout(timeout)].  [int_value] has no integer exactly for the
    values that fail [isinstance(timeout, int)]. *)
Definition validate_timeout (timeout : PyVal) : result unit :=
  match int_value timeout with
  | None => raise_ValueError "Timeout must be an integer"
  | Some t =>
      if (t <=? 0)%Z then raise_ValueError "Timeout must be greater than 0"
      else if (300 <? t)%Z then
        raise_ValueError "Timeout cannot exceed 300 seconds"
      else Return tt
  end.

(** The loop of [validate_headers] over [headers.items()]. *)
Fixpoint validate_header_items (items : list (PyVal * PyVal)) : result unit :=
  match items with
  | [] => Return tt
  | (key, value) :: rest =>
      if negb (isinstance_str key) then
        raise_ValueError ("Header key must be string, got " +:+ type_str key)
      else if negb (isinstance_str value) then
        raise_ValueError ("Header value must be string, got " +:+ type_str value)
      else validate_header_items rest
  end.

(** [validate_headers(headers)]: [None] is accepted, a value that is no
    dictionary is refused, the items of a dictionary are checked in order. *)
Definition validate_headers (headers : PyVal) : result unit :=
  match headers with
  | PyNone => Return tt
  | PyDict items => validate_header_items items
  | _ => raise_ValueError "Headers must be a dictionary"
  end.

(** The loop of [validate_params] over [params.items()]. *)
Fixpoint validate_param_items (items : list (PyVal * PyVal)) : result unit :=
  match items with
  | [] => Return tt
  | (key, value) :: rest =>
      if negb (isinstance_str key) then
        raise_ValueError ("Parameter key must be string, got " +:+ type_str key)
      else if negb (isinstance_str value) then
        raise_ValueError ("Parameter value must be string, got " +:+ type_str value)
      else validate_param_items rest
  end.

(** [validate_params(params)]. *)
Definition validate_params (params : PyVal) : result unit :=
  match params with
  | PyNone => Return tt
  | PyDict items => validate_param_items items
  | _ => raise_ValueError "Parameters must be a dictionary"
  end.

Definition valid_strategies : list PyVal :=
  [PyStr "DEFAULT"; PyBool true; PyBool false].

(** [validate_js_strategy(js_strategy)]. *)
Definition validate_js_strategy (js_strategy : PyVal) : result unit :=
  if negb (py_in js_strategy valid_strategies) then
    texts ← sequence (List.map (py_str py) valid_strategies);
    let valid_str := join ", " texts in
    raise_ValueError ("js_strategy must be one of: " +:+ valid_str)
  else Return tt.

Definition valid_methods : list string :=
  ["GET"; "POST"; "PUT"; "DELETE"; "PATCH"; "HEAD"; "OPTIONS"].

(** [validate_method(method)]. *)
Definition validate_method (method : PyVal) : result unit :=
  match method with
  | PyStr m =>
      let method_upper := upper m in
      if negb (str_in method_upper valid_methods) then
        let valid_str := join ", " valid_methods in
        raise_ValueError ("HTTP method must be one of: " +:+ valid_str)
      else Return tt
  | _ => raise_ValueError "HTTP method must be a string"
  end.

(** [validate_request_params(url, method, headers, params, browser,
    wait_for_load, screenshot, js_strategy, timeout, **kwargs)]: the
    seven checks in the order of the source; [kwargs] is not looked at. *)
Definition validate_request_params
    (url method headers params browser wait_for_load screenshot
       js_strategy timeout : PyVal)
    (kwargs : gmap string PyVal) : result unit :=
  validate_url url;;
  validate_method method;;
  validate_headers headers;;
  validate_params params;;
  validate_js_strategy js_strategy;;
  validate_timeout timeout;;
  validate_browser_dependencies browser wait_for_load screenshot js_strategy.

End Validators.

End ParameterValidator.

(** ** askpablos_api/utils.py *)

Module Utils.














(** [options.update(kwargs)]: every entry of [kwargs] is written into
    [options], over an entry of the same key if there is one. *)
Definition dict_update (options kwargs : gmap string PyVal) : gmap string PyVal :=
  kwargs ∪ options.

(** [build_proxy_options(browser, rotate_proxy, wait_for_load, screenshot,
    js_strategy, **kwargs)]. *)
Definition build_proxy_options
    (browser rotate_proxy wait_for_load screenshot js_strategy : PyVal)
    (kwargs : gmap string PyVal) : gmap string PyVal :=
  let options : gmap string PyVal :=
    <["rotate_proxy" := rotate_proxy]> (<["browser" := browser]> ∅) in
  let options :=
    if truthy browser then
      <["js_strategy" := js_strategy]>
        (<["screenshot" := screenshot]>
           (<["wait_for_load" := wait_for_load]> options))
    else options in
  dict_update options kwargs.

(** The keys that are written for a browser only. *)
Definition browser_only_keys : list string :=
  ["wait_for_load"; "screenshot"; "js_strategy"].

(** The names of the parameters of [build_proxy_options]. *)
Definition parameter_names : list string :=
  ["browser"; "rotate_proxy"; "wait_for_load"; "screenshot"; "js_strategy"].

(** What [**kwargs] can hold when the body runs.  Python binds a keyword
    argument spelled like a parameter to that parameter, and rejects the
    call with [TypeError] when the parameter already has a value, so no
    key of [kwargs] is a parameter name. *)
Definition extra_keywords (kwargs : gmap string PyVal) : Prop :=
  ∀ name, name ∈ parameter_names → kwargs !! name = None.

(** Binding a call of [build_proxy_options] that passes the keyword
    arguments [kw]:
    a parameter takes the argument of its name or else its default, and
    what is left over goes to [**kwargs]. *)
Definition bind_keywords (kw : gmap string PyVal)
    : PyVal * PyVal * PyVal * PyVal * PyVal * gmap string PyVal :=
  (default (PyBool false) (kw !! "browser"),
   default (PyBool true) (kw !! "rotate_proxy"),
   default (PyBool false) (kw !! "wait_for_load"),
   default (PyBool false) (kw !! "screenshot"),
   default (PyStr "DEFAULT") (kw !! "js_strategy"),
   foldr delete kw parameter_names).

Definition call_build_proxy_options (kw : gmap string PyVal) : gmap string PyVal :=
  let '(browser, rotate_proxy, wait_for_load, screenshot, js_strategy, kwargs) :=
    bind_keywords kw in
  build_proxy_options browser rotate_proxy wait_for_load screenshot js_strategy kwargs.

(** The first key of a dictionary, in its order, that is a parameter name. *)
Definition duplicate_keyword (extra : list (string * PyVal)) : option string :=
  fst <$> List.find (fun kv => bool_decide (kv.1 ∈ parameter_names)) extra.

(** The call [build_proxy_options(browser=..., rotate_proxy=...,
    wait_for_load=..., screenshot=..., js_strategy=..., **extra)] with the
    five parameters passed by name and a dictionary [extra], given by its
    items in order, unpacked after them.  Python refuses the call with a
    [TypeError] when a key of [extra] repeats a keyword already passed;
    otherwise the body runs with [extra] for [kwargs]. *)
Definition call_build_proxy_options_extra
    (browser rotate_proxy wait_for_load screenshot js_strategy : PyVal)
    (extra : list (string * PyVal)) : result (gmap string PyVal) :=
  match duplicate_keyword extra with
  | Some name =>
      Raise
        (mk_exn TypeError
           ("askpablos_api.utils.build_proxy_options() got multiple values "
            +:+ "for keyword argument '" +:+ name +:+ "'"))
  | None =>
      Return
        (build_proxy_options browser rotate_proxy wait_for_load screenshot
           js_strategy (list_to_map extra))
  end.

End Utils.

(** ** askpablos_api/core.py *)

Module AskPablos.

Import Utils.

(** The response object, with the fields the docstring of [get] lists. *)
Record ResponseData : Type := mk_ResponseData {
  status_code : Z;
  headers : gmap string string;
  content : string;
  url : string;
  elapsed_time : spec_float;
  encoding : option string;
  json : option PyVal;
  screenshot : option string
}.

(** What a call of [get] does outside itself, in order: a call of
    [self.client.request] with its five arguments, or a line written to the
    logger at error level. *)
Inductive event : Type :=
  | Request (url headers params : PyVal) (options : gmap string PyVal)
      (timeout : PyVal)
  | LogError (line : string).

Definition is_Request (e : event) : bool :=
  match e with Request _ _ _ _ _ => true | LogError _ => false end.

Section Facade.

(** [self.client.request]: [askpablos_api/client.py] is not among the
    sources, so the outcome of a request is a parameter. *)
Variable client_request :
  PyVal → PyVal → PyVal → gmap string PyVal → PyVal → result ResponseData.

(** The second half of [get] (lines 129 to 143): build the proxy
    options, call the client, and log and re-raise an exception of the
    [AskPablosError] family. *)
Definition get_delegate
    (url params headers browser rotate_proxy wait_for_load screenshot
       js_strategy timeout : PyVal)
    (options : gmap string PyVal) : result ResponseData * list event :=
  let proxy_options :=
    build_proxy_options browser rotate_proxy wait_for_load screenshot
      js_strategy options in
  let call := Request url headers params proxy_options timeout in
  match client_request url headers params proxy_options timeout with
  | Return response => (Return response, [call])
  | Raise e =>
      if is_AskPablosError (exn_class e)
      then (Raise e, [call; LogError ("GET request failed: " +:+ exn_msg e)])
      else (Raise e, [call])
  end.

(** [AskPablos.get(url, params, headers, browser, rotate_proxy,
    wait_for_load, screenshot, js_strategy, timeout, **options)]: the
    outcome together with the events emitted on the way.  The guard on
    the browser-dependent options comes first (lines 116 to 127). *)
Definition get
    (url params headers browser rotate_proxy wait_for_load screenshot
       js_strategy timeout : PyVal)
    (options : gmap string PyVal) : result ResponseData * list event :=
  if negb (truthy browser)
     && (truthy wait_for_load || truthy screenshot
         || py_ne js_strategy (PyStr "DEFAULT"))
  then
    let browser_features : list string := [] in
    let browser_features :=
      if truthy wait_for_load
      then (browser_features ++ ["wait_for_load=True"])%list
      else browser_features in
    let browser_features :=
      if truthy screenshot
      then (browser_features ++ ["screenshot=True"])%list
      else browser_features in
    let browser_features :=
      if py_ne js_strategy (PyStr "DEFAULT")
      then (browser_features ++ ["js_strategy=True"])%list
      else browser_features in
    let features_str := join ", " browser_features in
    (raise_ValueError
       ("browser=True is required for these actions: " +:+ features_str),
     [])
  else
    get_delegate url params headers browser rotate_proxy wait_for_load
      screenshot js_strategy timeout options.

End Facade.

(** A client whose every request fails to connect, for running [get] on
    concrete calls. *)
Definition unreachable_client
    (url headers params : PyVal) (options : gmap string PyVal)
    (timeout : PyVal) : result ResponseData :=
  Raise (mk_exn APIConnectionError "Connection refused").

End AskPablos.

(** ** The browser-dependency rule, in the words of the specification *)

Module BrowserRule.

(** The three features that need a browser, in the fixed order of rule 7
    of section 4.1. *)
Inductive feature : Type := WaitForLoad | Screenshot | JsStrategy.

Definition all_features : list feature := [WaitForLoad; Screenshot; JsStrategy].

Definition feature_name (f : feature) : string :=
  match f with
  | WaitForLoad => "wait_for_load"
  | Screenshot => "screenshot"
  | JsStrategy => "js_strategy"
  end.

(** A feature is requested when its flag is true, and for [js_strategy]
    when the strategy is not the default one. *)
Definition requested (wait_for_load screenshot js_strategy : PyVal)
    (f : feature) : bool :=
  match f with
  | WaitForLoad => truthy wait_for_load
  | Screenshot => truthy screenshot
  | JsStrategy => py_ne js_strategy (PyStr "DEFAULT")
  end.

(** The offending features of a call without a browser: the requested ones,
    in the fixed order. *)
Definition offending (wait_for_load screenshot js_strategy : PyVal)
    : list feature :=
  List.filter (requested wait_for_load screenshot js_strategy) all_features.

(** An entry of the message names the feature and shows a value for it:
    the validator shows the text of the strategy that was passed, the facade
    always shows [True]. *)
Definition validator_entry (strategy_text : string) (f : feature) : string :=
  feature_name f +:+ "=" +:+
  match f with
  | JsStrategy => strategy_text
  | _ => "True"
  end.

Definition facade_entry (f : feature) : string := feature_name f +:+ "=True".

(** The message: the entries joined by a comma and a space. *)
Definition message (entries : list string) : string :=
  "browser=True is required for these actions: " +:+ join ", " entries.

End BrowserRule.

(** ** The request signer *)

Module AuthSigner.

(** [askpablos_api/auth.py] is not among the sources; this module follows
    section 4.3 of the specification. *)


Section Signer.

(** The cryptographic hash function that HMAC is built on, the length in
    bytes of the blocks it works on, the encoding of the digest for a
    header, and the fixed separator of the canonical string. *)
Variable hash : list Byte.byte → list Byte.byte.
Variable block_size : nat.
Variable encode : list Byte.byte → string.
Variable separator : string.







End Signer.



#[global] Instance byte_eq_decision : EqDecision Byte.byte := Byte.byte_eq_dec.




End AuthSigner.

(** ** Proof steps *)

(** Case analysis on the condition of a conditional in the goal. *)
Ltac case_if :=
  match goal with
  | |- context [if ?c then _ else _] => destruct c eqn:?
  end.

(** A validator's outcome, once its conditions are decided. *)
Ltac outcome :=
  first [ left; reflexivity
        | right; eexists; split; [| reflexivity]; simpl; discriminate ].

(** * Properties *)

#[local] Set Default Proof Using "Type".

(** ** The validators *)

Section ValidatorFacts.

Import ParameterValidator.

Variable py : Interpreter.

Lemma int_value_isinstance (v : PyVal) :
  int_value v = None ↔ isinstance_int v = false.
Proof. destruct v as [| [] | | | | |]; simpl; split; congruence. Qed.

Lemma validate_timeout_not_int (v : PyVal) :
  isinstance_int v = false →
  raises_with ValueError "Timeout must be an integer" (validate_timeout v).
Proof.
  intros Hv. apply int_value_isinstance in Hv.
  unfold validate_timeout, raises_with. now rewrite Hv.
Qed.

Lemma validate_timeout_int (t : Z) :
  validate_timeout (PyInt t) =
  if (t <=? 0)%Z then raise_ValueError "Timeout must be greater than 0"
  else if (300 <? t)%Z then raise_ValueError "Timeout cannot exceed 300 seconds"
  else Return tt.
Proof. reflexivity. Qed.

(** What [validate_js_strategy] lets through is decided by [==] against
    the three listed values. *)
Lemma validate_js_strategy_returns_iff (x : PyVal) :
  validate_js_strategy py x = Return tt ↔
  py_eq (PyStr "DEFAULT") x = true ∨ py_eq (PyBool true) x = true
  ∨ py_eq (PyBool false) x = true.
Proof.
  unfold validate_js_strategy, py_in, valid_strategies. cbn [existsb].
  destruct (py_eq (PyStr "DEFAULT") x), (py_eq (PyBool true) x),
    (py_eq (PyBool false) x); cbn [orb negb]; split; intros H; auto;
    solve [discriminate H | destruct H as [H | [H | H]]; discriminate H].
Qed.


(** [sequence] raises what one of the computations raises. *)
Lemma sequence_raise {A : Type} (rs : list (result A)) (e : exn) :
  sequence rs = Raise e → In (Raise e) rs.
Proof.
  induction rs as [| r rs IH]; [discriminate |].
  cbn [sequence]. destruct r as [x | e']; cbn.
  - destruct (sequence rs) as [xs | e'']; cbn; [discriminate |].
    intros [= ->]. right. by apply IH.
  - intros [= ->]. by left.
Qed.

(** [repr] fails in two ways only: on an integer with too many digits, and
    on lists and dictionaries nested too deep. *)
Lemma py_repr_raises (levels : nat) (v : PyVal) (e : exn) :
  py_repr py levels v = Raise e →
  e = digit_limit_error (int_max_str_digits py) ∨ e = recursion_error.
Proof.
  revert v. induction levels as [| d IH]; intros v;
    destruct v as [| b | n | f | s | l | items]; cbn [py_repr];
    try discriminate;
    try (destruct (exceeds_digit_limit _ _); [intros [= <-]; by left | discriminate]);
    try (intros [= <-]; by right).
  - destruct (sequence (List.map (py_repr py d) l)) as [texts | e'] eqn:Hseq;
      cbn; [discriminate | intros [= ->]].
    apply sequence_raise in Hseq. apply in_map_iff in Hseq as (x & Hx & _).
    by apply (IH x).
  - destruct (sequence (List.map _ items)) as [texts | e'] eqn:Hseq;
      cbn; [discriminate | intros [= ->]].
    apply sequence_raise in Hseq. apply in_map_iff in Hseq as ([k x] & Hx & _).
    cbn [fst snd] in Hx.
    destruct (py_repr py d k) as [key | e'] eqn:Hk; cbn in Hx.
    + destruct (py_repr py d x) as [value | e'] eqn:Hv; cbn in Hx;
        [discriminate Hx | injection Hx as ->]. by apply (IH x).
    + injection Hx as ->. by apply (IH k).
Qed.

Lemma py_str_raises (v : PyVal) (e : exn) :
  py_str py v = Raise e →
  e = digit_limit_error (int_max_str_digits py) ∨ e = recursion_error.
Proof.
  destruct v; try apply py_repr_raises. discriminate.
Qed.


(** The text of a string is the string, the text of a boolean is [True] or
    [False], whatever the limits of the interpreter. *)
Lemma py_str_documented :
  (∀ s, py_str py (PyStr s) = Return s)
  ∧ (∀ b, py_str py (PyBool b) = Return (str_bool b)).
Proof. split; reflexivity. Qed.

Lemma validate_js_strategy_listed :
  validate_js_strategy py (PyStr "DEFAULT") = Return tt
  ∧ validate_js_strategy py (PyBool true) = Return tt
  ∧ validate_js_strategy py (PyBool false) = Return tt.
Proof. repeat split. Qed.

(** Among strings only ["DEFAULT"] passes: the strategy is no free string. *)
Lemma validate_js_strategy_str (s : string) :
  validate_js_strategy py (PyStr s) = Return tt ↔ s = "DEFAULT".
Proof.
  rewrite validate_js_strategy_returns_iff. cbn [py_eq].
  rewrite String.eqb_eq. split; [intros [H | [H | H]] | intros H];
    try discriminate; auto.
Qed.



End ValidatorFacts.




(** C4 fails on the integer [1]: [validate_js_strategy(1)] returns normally,
    because the membership test compares with [==] and [1 == True]; yet [1]
    is none of ["DEFAULT"], [True] and [False].  The same holds for [0]. *)
Theorem validate_js_strategy_accepts_int_one (py : Interpreter) :
  ParameterValidator.validate_js_strategy py (PyInt 1) = Return tt
  ∧ ParameterValidator.validate_js_strategy py (PyInt 0) = Return tt
  ∧ (PyInt 1 ∉ ParameterValidator.valid_strategies)
  ∧ (PyInt 0 ∉ ParameterValidator.valid_strategies).
Proof.
  unfold ParameterValidator.valid_strategies.
  repeat split; intros H; rewrite !elem_of_cons, elem_of_nil in H;
    destruct H as [H | [H | [H | []]]]; discriminate H.
Qed.

(** C5: [validate_timeout(t)] returns normally for every integer [t] with
    [1 <= t <= 300]; it fails for [t = 0], for every negative [t], for every
    [t] that is not an integer, and for every [t > 300]. *)
Theorem validate_timeout_range :
  (∀ t : Z, (1 ≤ t ≤ 300)%Z →
     ParameterValidator.validate_timeout (PyInt t) = Return tt)
  ∧ raises_with ValueError "Timeout must be greater than 0"
      (ParameterValidator.validate_timeout (PyInt 0))
  ∧ (∀ t : Z, (t < 0)%Z →
       raises_with ValueError "Timeout must be greater than 0"
         (ParameterValidator.validate_timeout (PyInt t)))
  ∧ (∀ v : PyVal, isinstance_int v = false →
       raises_with ValueError "Timeout must be an integer"
         (ParameterValidator.validate_timeout v))
  ∧ (∀ t : Z, (300 < t)%Z →
       raises_with ValueError "Timeout cannot exceed 300 seconds"
         (ParameterValidator.validate_timeout (PyInt t))).
Proof.
  repeat split.
  - intros t Ht. rewrite validate_timeout_int.
    destruct (Z.leb_spec t 0); [lia |]. destruct (Z.ltb_spec 300 t); [lia | reflexivity].
  - intros t Ht. unfold raises_with. rewrite validate_timeout_int.
    destruct (Z.leb_spec t 0); [reflexivity | lia].
  - apply validate_timeout_not_int.
  - intros t Ht. unfold raises_with. rewrite validate_timeout_int.
    destruct (Z.leb_spec t 0); [lia |]. destruct (Z.ltb_spec 300 t); [reflexivity | lia].
Qed.

(** C5 at the timeouts 30, -5, "30", 2.5 and 301. *)
Lemma validate_timeout_range_witness :
  ParameterValidator.validate_timeout (PyInt 30) = Return tt
  ∧ raises (ParameterValidator.validate_timeout (PyInt (-5)))
  ∧ raises (ParameterValidator.validate_timeout (PyStr "30"))
  ∧ raises (ParameterValidator.validate_timeout (PyFloat (S754_finite false 5 (-1))))
  ∧ raises (ParameterValidator.validate_timeout (PyInt 301)).
Proof.
  destruct validate_timeout_range as (Hin & _ & Hneg & Hnot & Hbig).
  split; [| split; [| split; [| split]]].
  - apply Hin. lia.
  - eexists. apply Hneg. lia.
  - eexists. apply Hnot. reflexivity.
  - eexists. apply Hnot. reflexivity.
  - eexists. apply Hbig. lia.
Defined.

(** C10: [validate_timeout(True)] returns normally, [True] being an instance
    of [int] that counts as 1, and [validate_timeout(False)] fails with the
    reason "Timeout must be greater than 0", not with "Timeout must be an
    integer". *)
Theorem validate_timeout_bool :
  ParameterValidator.validate_timeout (PyBool true) = Return tt
  ∧ isinstance_int (PyBool true) = true
  ∧ int_value (PyBool true) = Some 1%Z
  ∧ raises_with ValueError "Timeout must be greater than 0"
      (ParameterValidator.validate_timeout (PyBool false))
  ∧ ¬ raises_with ValueError "Timeout must be an integer"
        (ParameterValidator.validate_timeout (PyBool false)).
Proof.
  repeat split. unfold raises_with. simpl. discriminate.
Qed.

(** ** The browser-dependency rule in the validator and in the facade *)

Section BrowserRuleFacts.

Import ParameterValidator AskPablos BrowserRule.

Variable py : Interpreter.
Variable client_request :
  PyVal → PyVal → PyVal → gmap string PyVal → PyVal → result ResponseData.

(** A feature offends exactly when it is requested. *)
Lemma elem_of_offending (w s j : PyVal) (f : feature) :
  In f (offending w s j) ↔ requested w s j f = true.
Proof.
  unfold offending. rewrite filter_In. split.
  - intros [_ H]. exact H.
  - intros H. split; [| exact H].
    destruct f; [left | right; left | right; right; left]; reflexivity.
Qed.

Lemma offending_nil (w s j : PyVal) :
  offending w s j = [] ↔
  truthy w || truthy s || py_ne j (PyStr "DEFAULT") = false.
Proof.
  unfold offending, all_features. cbn [List.filter requested].
  destruct (truthy w), (truthy s), (py_ne j (PyStr "DEFAULT"));
    cbn; split; congruence.
Qed.

(** The validator, read through the rule: the text of the strategy is
    asked for when the strategy offends, and the message is made from it. *)
Lemma validate_browser_dependencies_rule (b w s j : PyVal) :
  validate_browser_dependencies py b w s j =
  if truthy b then Return tt
  else match offending w s j with
       | [] => Return tt
       | fs =>
           text ← (if py_ne j (PyStr "DEFAULT") then py_str py j
                   else Return "");
           raise_ValueError (message (List.map (validator_entry text) fs))
       end.
Proof.
  unfold validate_browser_dependencies, offending, all_features.
  cbn [List.filter requested].
  destruct (truthy b); [reflexivity |].
  destruct (truthy w), (truthy s), (py_ne j (PyStr "DEFAULT"));
    try reflexivity; destruct (py_str py j); reflexivity.
Qed.

(** The validator raises exactly when a feature offends. *)
Lemma validate_browser_dependencies_raises (b w s j : PyVal) :
  raises (validate_browser_dependencies py b w s j) ↔
  truthy b = false ∧ offending w s j ≠ [].
Proof.
  rewrite validate_browser_dependencies_rule.
  destruct (truthy b); [split; [intros [e He] | intros [He _]]; discriminate He |].
  destruct (offending w s j) as [| f fs].
  - split; [intros [e He]; discriminate He | intros [_ He]; by destruct He].
  - split; [intros _; split; [reflexivity | discriminate] | intros _].
    destruct (if py_ne j (PyStr "DEFAULT") then py_str py j else Return "")
      as [text | e]; eexists; reflexivity.
Qed.

(** With the text of the strategy at hand, the validator raises the message
    of the rule. *)
Lemma validate_browser_dependencies_message (b w s j : PyVal) (text : string) :
  py_str py j = Return text →
  raises (validate_browser_dependencies py b w s j) →
  validate_browser_dependencies py b w s j
  = raise_ValueError
      (message (List.map (validator_entry text) (offending w s j))).
Proof.
  intros Htext. rewrite validate_browser_dependencies_rule.
  unfold offending, all_features. cbn [List.filter requested].
  destruct (truthy b); [intros [e He]; discriminate He |].
  rewrite Htext.
  destruct (truthy w), (truthy s), (py_ne j (PyStr "DEFAULT")); intros [e He];
    first [reflexivity | discriminate He].
Qed.

(** The facade, read through the rule. *)
Lemma get_rule (url params headers b r w s j timeout : PyVal)
    (options : gmap string PyVal) :
  get client_request url params headers b r w s j timeout options =
  if truthy b
  then get_delegate client_request url params headers b r w s j timeout options
  else match offending w s j with
       | [] => get_delegate client_request url params headers b r w s j timeout options
       | fs => (raise_ValueError (message (List.map facade_entry fs)), [])
       end.
Proof.
  unfold get, offending, all_features. cbn [List.filter requested].
  destruct (truthy b); [reflexivity |].
  destruct (truthy w), (truthy s), (py_ne j (PyStr "DEFAULT")); reflexivity.
Qed.

(** Delegation calls the client exactly once, with the arguments of [get]
    as they came and the options built from them, and hands back what the
    client returned or raised. *)
Lemma get_delegate_calls_once (url params headers b r w s j timeout : PyVal)
    (options : gmap string PyVal) :
  let proxy_options := Utils.build_proxy_options b r w s j options in
  let outcome :=
    get_delegate client_request url params headers b r w s j timeout options in
  outcome.1 = client_request url headers params proxy_options timeout
  ∧ List.filter is_Request outcome.2
    = [Request url headers params proxy_options timeout].
Proof.
  unfold get_delegate. cbn zeta.
  destruct (client_request _ _ _ _ _) as [resp | e]; [split; reflexivity |].
  destruct (is_AskPablosError (exn_class e)); split; reflexivity.
Qed.

Lemma get_delegate_emits (url params headers b r w s j timeout : PyVal)
    (options : gmap string PyVal) :
  (get_delegate client_request url params headers b r w s j timeout options).2
  ≠ [].
Proof.
  intros H.
  pose proof (get_delegate_calls_once url params headers b r w s j timeout options)
    as [_ Hcalls].
  cbn zeta in Hcalls. rewrite H in Hcalls. discriminate Hcalls.
Qed.

End BrowserRuleFacts.

(** C1, as stated, fails for the validator's message: without a browser and
    with the integer [10 ** 4300] for the strategy, what
    [validate_browser_dependencies] raises is the [ValueError] of the
    conversion of the integer to text, whose message lists no feature. *)
Lemma validate_browser_dependencies_digit_limit :
  ParameterValidator.validate_browser_dependencies default_interpreter
    (PyBool false) (PyBool false) (PyBool false) (PyInt (10 ^ 4300))
  = raise_ValueError
      "Exceeds the limit (4300 digits) for integer string conversion; use sys.set_int_max_str_digits() to increase the limit"
  ∧ ∀ entries,
      "Exceeds the limit (4300 digits) for integer string conversion; use sys.set_int_max_str_digits() to increase the limit"
      ≠ BrowserRule.message entries.
Proof.
  split; [vm_compute; reflexivity |].
  intros entries. unfold BrowserRule.message. simpl. discriminate.
Qed.

(** C1, as amended: without a browser ([browser] false), a call that asks
    for [wait_for_load], for [screenshot] or for a [js_strategy] other than
    the default, alone or together, fails in [validate_browser_dependencies]
    and in [AskPablos.get].  The message of [get] lists exactly the
    offending features, joined by commas, in the order wait_for_load,
    screenshot, js_strategy; so does the message of the validator whenever
    [str(js_strategy)] yields a text, as it does for every string and
    boolean.  With a browser neither check fails: the validator returns and
    [get] goes on to the client, whose outcome it hands back. *)
Theorem browser_dependency_rule
    (py : Interpreter)
    (client_request :
       PyVal → PyVal → PyVal → gmap string PyVal → PyVal
       → result AskPablos.ResponseData)
    (url params headers browser rotate_proxy wait_for_load screenshot
       js_strategy timeout : PyVal)
    (options : gmap string PyVal) :
  let offenders := BrowserRule.offending wait_for_load screenshot js_strategy in
  let validated :=
    ParameterValidator.validate_browser_dependencies py
      browser wait_for_load screenshot js_strategy in
  let fetched :=
    AskPablos.get client_request url params headers browser rotate_proxy
      wait_for_load screenshot js_strategy timeout options in
  (truthy browser = false →
   truthy wait_for_load = true ∨ truthy screenshot = true
   ∨ py_ne js_strategy (PyStr "DEFAULT") = true →
     offenders ≠ []
     ∧ raises validated
     ∧ (∀ text, py_str py js_strategy = Return text →
          raises_with ValueError
            (BrowserRule.message
               (List.map (BrowserRule.validator_entry text) offenders))
            validated)
     ∧ fetched
       = (raise_ValueError
            (BrowserRule.message (List.map BrowserRule.facade_entry offenders)),
          []))
  ∧ (∀ f, In f offenders ↔
          BrowserRule.requested wait_for_load screenshot js_strategy f = true)
  ∧ (truthy browser = true →
       validated = Return tt
       ∧ fetched.1
         = client_request url headers params
             (Utils.build_proxy_options browser rotate_proxy wait_for_load
                screenshot js_strategy options)
             timeout)
  ∧ (∀ s, py_str py (PyStr s) = Return s)
  ∧ (∀ b, py_str py (PyBool b) = Return (str_bool b)).
Proof.
  cbn zeta. split; [| split; [| split]].
  - intros Hb Hreq.
    assert (Hne : BrowserRule.offending wait_for_load screenshot js_strategy ≠ []).
    { rewrite offending_nil. destruct Hreq as [H | [H | H]]; rewrite H;
        destruct (truthy wait_for_load), (truthy screenshot); discriminate. }
    assert (Hraises :
      raises (ParameterValidator.validate_browser_dependencies py browser
                wait_for_load screenshot js_strategy))
      by (by apply validate_browser_dependencies_raises).
    split; [exact Hne |]. split; [exact Hraises |]. split.
    + intros text Htext. unfold raises_with.
      by apply validate_browser_dependencies_message.
    + rewrite get_rule, Hb.
      destruct (BrowserRule.offending _ _ _); [contradiction | reflexivity].
  - intros f. exact (elem_of_offending wait_for_load screenshot js_strategy f).
  - intros Hb. rewrite validate_browser_dependencies_rule, get_rule, Hb.
    split; [reflexivity |]. apply get_delegate_calls_once.
  - apply py_str_documented.
Qed.

(** C1, as amended, at a call without a browser that asks for all three
    features, and at the same call with a browser. *)
Lemma browser_dependency_rule_witness :
  raises_with ValueError
    "browser=True is required for these actions: wait_for_load=True, screenshot=True, js_strategy=False"
    (ParameterValidator.validate_browser_dependencies default_interpreter
       (PyBool false) (PyBool true) (PyBool true) (PyBool false))
  ∧ AskPablos.get AskPablos.unreachable_client
      (PyStr "https://example.com") PyNone PyNone (PyBool false) (PyBool false)
      (PyBool true) (PyBool true) (PyBool false) (PyInt 30) ∅
    = (raise_ValueError
         "browser=True is required for these actions: wait_for_load=True, screenshot=True, js_strategy=True",
       [])
  ∧ ParameterValidator.validate_browser_dependencies default_interpreter
      (PyBool true) (PyBool true) (PyBool true) (PyBool false) = Return tt.
Proof.
  pose proof (browser_dependency_rule default_interpreter
                AskPablos.unreachable_client
                (PyStr "https://example.com") PyNone PyNone (PyBool false)
                (PyBool false) (PyBool true) (PyBool true) (PyBool false)
                (PyInt 30) ∅) as (Hfalse & _ & _).
  pose proof (browser_dependency_rule default_interpreter
                AskPablos.unreachable_client
                (PyStr "https://example.com") PyNone PyNone (PyBool true)
                (PyBool false) (PyBool true) (PyBool true) (PyBool false)
                (PyInt 30) ∅) as (_ & _ & Htrue & _).
  destruct (Hfalse eq_refl (or_introl eq_refl))
    as (_ & _ & Hvalidated & Hfetched).
  destruct (Htrue eq_refl) as (Hok & _).
  split; [exact (Hvalidated "False" eq_refl) |].
  split; [exact Hfetched | exact Hok].
Defined.

(** C9: for every [browser], [wait_for_load], [screenshot] and
    [js_strategy], the guard at the top of [AskPablos.get] raises (the call
    fails before anything is sent) exactly when
    [validate_browser_dependencies] raises.  The two messages differ in the
    entry for [js_strategy]: the facade writes the literal text
    [js_strategy=True], the validator writes the text that [str] gives for
    the value that was passed. *)
Theorem facade_guard_agrees_with_validator
    (py : Interpreter)
    (client_request :
       PyVal → PyVal → PyVal → gmap string PyVal → PyVal
       → result AskPablos.ResponseData)
    (url params headers browser rotate_proxy wait_for_load screenshot
       js_strategy timeout : PyVal)
    (options : gmap string PyVal) :
  let offenders := BrowserRule.offending wait_for_load screenshot js_strategy in
  let validated :=
    ParameterValidator.validate_browser_dependencies py
      browser wait_for_load screenshot js_strategy in
  let fetched :=
    AskPablos.get client_request url params headers browser rotate_proxy
      wait_for_load screenshot js_strategy timeout options in
  ((∃ e, fetched = (Raise e, [])) ↔ raises validated)
  ∧ (raises validated →
       fetched
       = (raise_ValueError
            (BrowserRule.message (List.map BrowserRule.facade_entry offenders)),
          [])
       ∧ ∀ text, py_str py js_strategy = Return text →
           validated
           = raise_ValueError
               (BrowserRule.message
                  (List.map (BrowserRule.validator_entry text) offenders)))
  ∧ BrowserRule.facade_entry BrowserRule.JsStrategy = "js_strategy=True"
  ∧ ∀ text,
      BrowserRule.validator_entry text BrowserRule.JsStrategy
      = "js_strategy=" +:+ text.
Proof.
  cbn zeta. rewrite validate_browser_dependencies_raises.
  split; [| split; [| split; reflexivity]].
  - rewrite get_rule. destruct (truthy browser).
    + split; [intros [e He] | intros [He _]; discriminate He].
      exfalso. eapply get_delegate_emits. rewrite He. reflexivity.
    + destruct (BrowserRule.offending _ _ _) as [| f fs].
      * split; [intros [e He] | intros [_ He]; by destruct He].
        exfalso. eapply get_delegate_emits. rewrite He. reflexivity.
      * split; [intros _; split; [reflexivity | discriminate] |].
        intros _. eexists. reflexivity.
  - intros [Hb Hne]. split.
    + rewrite get_rule, Hb.
      destruct (BrowserRule.offending _ _ _); [contradiction | reflexivity].
    + intros text Htext. apply validate_browser_dependencies_message;
        [exact Htext |]. by apply validate_browser_dependencies_raises.
Qed.

(** C9 at [js_strategy=False] without a browser: both checks raise, with
    different texts for the strategy. *)
Lemma facade_guard_agrees_with_validator_witness :
  AskPablos.get AskPablos.unreachable_client
    (PyStr "https://example.com") PyNone PyNone (PyBool false) (PyBool false)
    (PyBool false) (PyBool false) (PyBool false) (PyInt 30) ∅
  = (raise_ValueError
       "browser=True is required for these actions: js_strategy=True", [])
  ∧ ParameterValidator.validate_browser_dependencies default_interpreter
      (PyBool false) (PyBool false) (PyBool false) (PyBool false)
    = raise_ValueError
        "browser=True is required for these actions: js_strategy=False".
Proof.
  pose proof (facade_guard_agrees_with_validator default_interpreter
                AskPablos.unreachable_client
                (PyStr "https://example.com") PyNone PyNone (PyBool false)
                (PyBool false) (PyBool false) (PyBool false) (PyBool false)
                (PyInt 30) ∅) as (_ & Hmessages & _).
  destruct Hmessages as [Hfacade Hvalidator]; [eexists; reflexivity |].
  split; [exact Hfacade | exact (Hvalidator "False" eq_refl)].
Defined.

(** C2, as stated, fails: a call with [timeout = 400] breaks rule 6 of
    section 4.1, so [validate_timeout] and [validate_request_params] raise,
    yet [get] passes it on: [self.client.request] is invoked with the
    timeout of 400. *)
Lemma get_passes_invalid_timeout_to_client :
  raises (ParameterValidator.validate_timeout (PyInt 400))
  ∧ raises
      (ParameterValidator.validate_request_params default_interpreter
         (PyStr "https://example.com") (PyStr "GET") PyNone PyNone
         (PyBool false) (PyBool false) (PyBool false) (PyStr "DEFAULT")
         (PyInt 400) ∅)
  ∧ AskPablos.get AskPablos.unreachable_client
      (PyStr "https://example.com") PyNone PyNone (PyBool false) (PyBool false)
      (PyBool false) (PyBool false) (PyStr "DEFAULT") (PyInt 400) ∅
    = (Raise (mk_exn APIConnectionError "Connection refused"),
       [AskPablos.Request (PyStr "https://example.com") PyNone PyNone
          (<["rotate_proxy" := PyBool false]> (<["browser" := PyBool false]> ∅))
          (PyInt 400);
        AskPablos.LogError "GET request failed: Connection refused"]).
Proof.
  split; [| split].
  - eexists. reflexivity.
  - eexists. reflexivity.
  - reflexivity.
Qed.

(** C2, as amended: of the rules of section 4.1, [get] itself enforces the
    browser-dependency rule only.  A call that breaks it fails with a
    [ValueError] before [self.client.request] is invoked; every other call,
    whatever its url, headers, params, js_strategy and timeout, is passed to
    [self.client.request] exactly once, with those arguments as they came
    and the options built from them, and [get] hands back the client's
    outcome. *)
Theorem get_checks_only_browser_rule
    (py : Interpreter)
    (client_request :
       PyVal → PyVal → PyVal → gmap string PyVal → PyVal
       → result AskPablos.ResponseData)
    (url params headers browser rotate_proxy wait_for_load screenshot
       js_strategy timeout : PyVal)
    (options : gmap string PyVal) :
  let validated :=
    ParameterValidator.validate_browser_dependencies py
      browser wait_for_load screenshot js_strategy in
  let fetched :=
    AskPablos.get client_request url params headers browser rotate_proxy
      wait_for_load screenshot js_strategy timeout options in
  let proxy_options :=
    Utils.build_proxy_options browser rotate_proxy wait_for_load screenshot
      js_strategy options in
  (raises validated → ∃ msg, fetched = (raise_ValueError msg, []))
  ∧ (validated = Return tt →
       fetched.1 = client_request url headers params proxy_options timeout
       ∧ List.filter AskPablos.is_Request fetched.2
         = [AskPablos.Request url headers params proxy_options timeout]).
Proof.
  cbn zeta. rewrite validate_browser_dependencies_rule, get_rule. split.
  - intros [e He]. destruct (truthy browser); [discriminate He |].
    destruct (BrowserRule.offending _ _ _); [discriminate He |].
    eexists. reflexivity.
  - intros Hok. destruct (truthy browser).
    + apply get_delegate_calls_once.
    + destruct (BrowserRule.offending _ _ _);
        [| destruct (if py_ne _ _ then _ else _); discriminate Hok].
      apply get_delegate_calls_once.
Qed.

(** C2, as amended, at two calls with a URL and a timeout that rules 1 and 6
    refuse: with [screenshot] and no browser the call fails at once, without
    [screenshot] it reaches the client. *)
Lemma get_checks_only_browser_rule_witness :
  (∃ msg,
     AskPablos.get AskPablos.unreachable_client
       (PyStr "ftp://example.com") PyNone PyNone (PyBool false) (PyBool false)
       (PyBool false) (PyBool true) (PyStr "DEFAULT") (PyInt 0) ∅
     = (raise_ValueError msg, []))
  ∧ List.filter AskPablos.is_Request
      (AskPablos.get AskPablos.unreachable_client
         (PyStr "ftp://example.com") PyNone PyNone (PyBool false) (PyBool false)
         (PyBool false) (PyBool false) (PyStr "DEFAULT") (PyInt 0) ∅).2
    = [AskPablos.Request (PyStr "ftp://example.com") PyNone PyNone
         (Utils.build_proxy_options (PyBool false) (PyBool false) (PyBool false)
            (PyBool false) (PyStr "DEFAULT") ∅)
         (PyInt 0)].
Proof.
  split.
  - apply (get_checks_only_browser_rule default_interpreter AskPablos.unreachable_client
             (PyStr "ftp://example.com") PyNone PyNone (PyBool false)
             (PyBool false) (PyBool false) (PyBool true) (PyStr "DEFAULT")
             (PyInt 0) ∅).
    eexists. reflexivity.
  - apply (get_checks_only_browser_rule default_interpreter AskPablos.unreachable_client
             (PyStr "ftp://example.com") PyNone PyNone (PyBool false)
             (PyBool false) (PyBool false) (PyBool false) (PyStr "DEFAULT")
             (PyInt 0) ∅).
    reflexivity.
Defined.

(** ** The options builder *)

Section OptionsFacts.

Import Utils.

Lemma dict_update_lookup_Some (options kwargs : gmap string PyVal)
    (k : string) (v : PyVal) :
  kwargs !! k = Some v → dict_update options kwargs !! k = Some v.
Proof. intros H. unfold dict_update. by apply lookup_union_Some_l. Qed.

Lemma dict_update_lookup_None (options kwargs : gmap string PyVal) (k : string) :
  kwargs !! k = None → dict_update options kwargs !! k = options !! k.
Proof. intros H. unfold dict_update. by apply lookup_union_r. Qed.

Lemma browser_only_is_parameter (name : string) :
  name ∈ browser_only_keys → name ∈ parameter_names.
Proof.
  unfold browser_only_keys, parameter_names.
  rewrite !elem_of_cons, !elem_of_nil. tauto.
Qed.

(** What is left for [**kwargs] after binding holds no parameter name. *)
Lemma bind_keywords_extra (kw : gmap string PyVal) :
  extra_keywords (bind_keywords kw).2.
Proof.
  intros name Hname. unfold bind_keywords, parameter_names in *. cbn.
  rewrite !elem_of_cons, elem_of_nil in Hname.
  rewrite !lookup_delete_None.
  destruct Hname as [-> | [-> | [-> | [-> | [-> | []]]]]]; tauto.
Qed.

Lemma build_proxy_options_falsy (browser r w s j : PyVal)
    (kwargs : gmap string PyVal) (name : string) :
  truthy browser = false → extra_keywords kwargs →
  name ∈ browser_only_keys →
  build_proxy_options browser r w s j kwargs !! name = None.
Proof.
  intros Hb Hkw Hname. unfold build_proxy_options. rewrite Hb.
  rewrite dict_update_lookup_None
    by (apply Hkw, browser_only_is_parameter, Hname).
  unfold browser_only_keys in Hname.
  rewrite !elem_of_cons, elem_of_nil in Hname.
  destruct Hname as [-> | [-> | [-> | []]]]; reflexivity.
Qed.

End OptionsFacts.

(** C6: with [browser=False], whatever [wait_for_load], [screenshot],
    [js_strategy] and the extra keywords are, the mapping that
    [build_proxy_options] returns has none of the keys wait_for_load,
    screenshot and js_strategy.  The first part is about the body, run with
    what [**kwargs] can hold; the second is about a call given by its
    keyword arguments, bound as Python binds them. *)
Theorem build_proxy_options_without_browser
    (rotate_proxy wait_for_load screenshot js_strategy : PyVal)
    (kwargs kw : gmap string PyVal) (name : string) :
  name ∈ Utils.browser_only_keys →
  (Utils.extra_keywords kwargs →
   Utils.build_proxy_options (PyBool false) rotate_proxy wait_for_load
     screenshot js_strategy kwargs !! name = None)
  ∧ (kw !! "browser" = Some (PyBool false) ∨ kw !! "browser" = None →
     Utils.call_build_proxy_options kw !! name = None).
Proof.
  intros Hname. split.
  - intros Hkw. by apply build_proxy_options_falsy.
  - intros Hb. unfold Utils.call_build_proxy_options.
    pose proof (bind_keywords_extra kw) as Hextra.
    destruct (Utils.bind_keywords kw) as [[[[[b r] w] s] j] rest] eqn:Hbind.
    apply build_proxy_options_falsy; [| exact Hextra | exact Hname].
    unfold Utils.bind_keywords in Hbind. injection Hbind as <- _ _ _ _ _.
    destruct Hb as [-> | ->]; reflexivity.
Qed.

(** C6 at the key screenshot, with [screenshot=True] passed by name. *)
Lemma build_proxy_options_without_browser_witness :
  Utils.build_proxy_options (PyBool false) (PyBool true) (PyBool true)
    (PyBool true) (PyBool true) {["user_agent" := PyStr "curl"]} !! "screenshot"
  = None
  ∧ Utils.call_build_proxy_options
      (<["screenshot" := PyBool true]> {["browser" := PyBool false]})
      !! "screenshot"
    = None.
Proof.
  assert (Hname : "screenshot" ∈ Utils.browser_only_keys)
    by (right; left).
  assert (Hkw : Utils.extra_keywords {["user_agent" := PyStr "curl"]}).
  { intros name Hin. unfold Utils.parameter_names in Hin.
    rewrite !elem_of_cons, elem_of_nil in Hin.
    destruct Hin as [-> | [-> | [-> | [-> | [-> | []]]]]]; reflexivity. }
  pose proof (build_proxy_options_without_browser (PyBool true) (PyBool true)
                (PyBool true) (PyBool true) {["user_agent" := PyStr "curl"]}
                (<["screenshot" := PyBool true]> {["browser" := PyBool false]})
                "screenshot" Hname) as [Hbody Hcall].
  split; [exact (Hbody Hkw) | apply Hcall; left; reflexivity].
Defined.

Section CallFacts.

Import Utils.

(** A dictionary none of whose keys is a parameter name can be unpacked into
    the call. *)
Lemma duplicate_keyword_None (extra : list (string * PyVal)) :
  duplicate_keyword extra = None → extra_keywords (list_to_map extra).
Proof.
  unfold duplicate_keyword. intros Hfind name Hname.
  destruct (List.find _ extra) as [kv |] eqn:Hkv; [discriminate Hfind |].
  apply not_elem_of_list_to_map_1. intros Hin.
  apply list_elem_of_fmap in Hin as ([k v] & -> & Hin).
  apply list_elem_of_In in Hin.
  apply (find_none _ _ Hkv) in Hin. cbn [fst] in Hin.
  by apply bool_decide_eq_false in Hin.
Qed.

(** The five entries that the call of C7 passes by name. *)
Lemma named_entry_is_parameter (r : PyVal) (k : string) (v : PyVal) :
  (list_to_map
     [("browser", PyBool true); ("rotate_proxy", r);
      ("wait_for_load", PyBool true); ("screenshot", PyBool true);
      ("js_strategy", PyBool false)] : gmap string PyVal) !! k = Some v →
  k ∈ parameter_names.
Proof.
  intros Hk. apply elem_of_list_to_map_2 in Hk.
  unfold parameter_names. rewrite !elem_of_cons in *.
  rewrite elem_of_nil in Hk.
  destruct Hk as [[= -> _] | [[= -> _] | [[= -> _] | [[= -> _] | [[= -> _] | []]]]]];
    tauto.
Qed.

End CallFacts.

(** C7, as stated, fails where it lets an extra entry override a named
    value: the call [build_proxy_options(browser=True, rotate_proxy=False,
    wait_for_load=True, screenshot=True, js_strategy=False,
    **{"screenshot": False})] returns no mapping at all, it is refused with
    a [TypeError]. *)
Lemma build_proxy_options_repeated_keyword :
  (∃ msg,
     Utils.call_build_proxy_options_extra (PyBool true) (PyBool false)
       (PyBool true) (PyBool true) (PyBool false) [("screenshot", PyBool false)]
     = Raise (mk_exn TypeError msg))
  ∧ ∀ options,
      Utils.call_build_proxy_options_extra (PyBool true) (PyBool false)
        (PyBool true) (PyBool true) (PyBool false) [("screenshot", PyBool false)]
      ≠ Return options.
Proof.
  split; [eexists; reflexivity | intros options; discriminate].
Qed.

(** C7, as amended: [build_proxy_options(browser=True, rotate_proxy=r,
    wait_for_load=True, screenshot=True, js_strategy=False, **extra)]
    returns, when no key of [extra] is a parameter name, exactly the five
    named entries together with the entries of [extra], which are written
    last; every named entry keeps its value.  When a key of [extra] is a
    parameter name the call is refused with a [TypeError] and nothing is
    returned, so no extra entry ever overrides a named value.  The keys
    browser and rotate_proxy are present in every result of
    [build_proxy_options]. *)
Theorem build_proxy_options_with_browser
    (r : PyVal) (extra : list (string * PyVal)) :
  let named : gmap string PyVal :=
    list_to_map
      [("browser", PyBool true); ("rotate_proxy", r);
       ("wait_for_load", PyBool true); ("screenshot", PyBool true);
       ("js_strategy", PyBool false)] in
  let called :=
    Utils.call_build_proxy_options_extra (PyBool true) r (PyBool true)
      (PyBool true) (PyBool false) extra in
  (Utils.duplicate_keyword extra = None →
   ∃ options,
     called = Return options
     ∧ options = Utils.dict_update named (list_to_map extra)
     ∧ (∀ k v, named !! k = Some v → options !! k = Some v)
     ∧ (∀ k v, (list_to_map extra : gmap string PyVal) !! k = Some v →
               options !! k = Some v)
     ∧ dom options = dom named ∪ dom (list_to_map extra : gmap string PyVal))
  ∧ (∀ name, Utils.duplicate_keyword extra = Some name →
       ∃ msg, called = Raise (mk_exn TypeError msg))
  ∧ (∀ browser rotate_proxy wait_for_load screenshot js_strategy kwargs,
       is_Some (Utils.build_proxy_options browser rotate_proxy wait_for_load
                  screenshot js_strategy kwargs !! "browser")
       ∧ is_Some (Utils.build_proxy_options browser rotate_proxy wait_for_load
                    screenshot js_strategy kwargs !! "rotate_proxy")).
Proof.
  cbn zeta. unfold Utils.call_build_proxy_options_extra.
  split; [| split].
  - intros Hnone. rewrite Hnone. eexists. split; [reflexivity |].
    assert (Heq :
      Utils.build_proxy_options (PyBool true) r (PyBool true) (PyBool true)
        (PyBool false) (list_to_map extra)
      = Utils.dict_update
          (list_to_map
             [("browser", PyBool true); ("rotate_proxy", r);
              ("wait_for_load", PyBool true); ("screenshot", PyBool true);
              ("js_strategy", PyBool false)]) (list_to_map extra)).
    { unfold Utils.build_proxy_options. cbn [truthy]. reflexivity. }
    rewrite Heq. split; [reflexivity |]. split; [| split].
    + intros k v Hk. rewrite dict_update_lookup_None; [exact Hk |].
      apply (duplicate_keyword_None extra Hnone).
      by apply (named_entry_is_parameter r k v).
    + intros k v. apply dict_update_lookup_Some.
    + unfold Utils.dict_update. rewrite dom_union_L. apply (comm_L (∪)).
  - intros name ->. eexists. reflexivity.
  - intros browser rotate_proxy wait_for_load screenshot js_strategy kwargs.
    unfold Utils.build_proxy_options, Utils.dict_update.
    rewrite !lookup_union_is_Some.
    destruct (truthy browser); split; right; by simplify_map_eq.
Qed.

(** C7, as amended, at a call with a user agent for the extra entry, and at
    a call whose extra entries end with one for screenshot. *)
Lemma build_proxy_options_with_browser_witness :
  (∃ options,
     Utils.call_build_proxy_options_extra (PyBool true) (PyBool false)
       (PyBool true) (PyBool true) (PyBool false)
       [("user_agent", PyStr "curl")] = Return options
     ∧ options !! "screenshot" = Some (PyBool true)
     ∧ options !! "user_agent" = Some (PyStr "curl"))
  ∧ ∃ msg,
      Utils.call_build_proxy_options_extra (PyBool true) (PyBool false)
        (PyBool true) (PyBool true) (PyBool false)
        [("user_agent", PyStr "curl"); ("screenshot", PyBool false)]
      = Raise (mk_exn TypeError msg).
Proof.
  pose proof (build_proxy_options_with_browser (PyBool false)
                [("user_agent", PyStr "curl")]) as (Hcalled & _ & _).
  pose proof (build_proxy_options_with_browser (PyBool false)
                [("user_agent", PyStr "curl"); ("screenshot", PyBool false)])
    as (_ & Hrefused & _).
  split.
  - destruct (Hcalled eq_refl) as (options & Hreturn & _ & Hnamed & Hextra & _).
    exists options. split; [exact Hreturn |].
    split; [apply Hnamed | apply Hextra]; reflexivity.
  - apply (Hrefused "screenshot"). reflexivity.
Defined.

(** ** The request signer *)

Section SignerFacts.

Import AuthSigner.




Variable hash : list Byte.byte → list Byte.byte.
Variable block_size : nat.
Variable encode : list Byte.byte → string.
Variable separator : string.














End SignerFacts.

Section Pigeonhole.

Import AuthSigner.





End Pigeonhole.




(** * Further properties of the sources *)

(** ** validate_url, validate_method, validate_headers, validate_params *)

Section MoreValidatorFacts.

Import ParameterValidator.

Lemma upper_char_twice (c : ascii) : upper (upper_char c) = upper_char c.
Proof. destruct c as [[] [] [] [] [] [] [] []]; reflexivity. Qed.

Lemma upper_append (s t : string) : upper (s +:+ t) = upper s +:+ upper t.
Proof.
  induction s as [| c s IH]; [reflexivity |].
  change (upper (String c s +:+ t)) with (upper_char c +:+ upper (s +:+ t)).
  change (upper (String c s)) with (upper_char c +:+ upper s).
  rewrite IH. destruct c as [[] [] [] [] [] [] [] []]; reflexivity.
Qed.

Lemma upper_twice (s : string) : upper (upper s) = upper s.
Proof.
  induction s as [| c s IH]; [reflexivity |].
  change (upper (String c s)) with (upper_char c +:+ upper s).
  by rewrite upper_append, upper_char_twice, IH.
Qed.

Lemma str_in_In (s : string) (l : list string) : str_in s l = true ↔ In s l.
Proof.
  unfold str_in. rewrite existsb_exists. split.
  - intros (t & Hin & Heq). apply String.eqb_eq in Heq. by subst.
  - intros Hin. exists s. split; [exact Hin | apply String.eqb_refl].
Qed.

(** The items that pass the loops of [validate_headers] and
    [validate_params]. *)
Lemma validate_header_items_returns (items : list (PyVal * PyVal)) :
  validate_header_items items = Return tt ↔
  Forall (λ kv, isinstance_str kv.1 = true ∧ isinstance_str kv.2 = true) items.
Proof.
  induction items as [| [k v] rest IH]; cbn [validate_header_items].
  - split; [constructor | reflexivity].
  - rewrite Forall_cons. cbn [fst snd].
    destruct (isinstance_str k); cbn [negb];
      [| split; [discriminate | intros [[? _] _]; discriminate]].
    destruct (isinstance_str v); cbn [negb];
      [| split; [discriminate | intros [[_ ?] _]; discriminate]].
    rewrite IH. tauto.
Qed.

Lemma validate_param_items_returns (items : list (PyVal * PyVal)) :
  validate_param_items items = Return tt ↔
  Forall (λ kv, isinstance_str kv.1 = true ∧ isinstance_str kv.2 = true) items.
Proof.
  induction items as [| [k v] rest IH]; cbn [validate_param_items].
  - split; [constructor | reflexivity].
  - rewrite Forall_cons. cbn [fst snd].
    destruct (isinstance_str k); cbn [negb];
      [| split; [discriminate | intros [[? _] _]; discriminate]].
    destruct (isinstance_str v); cbn [negb];
      [| split; [discriminate | intros [[_ ?] _]; discriminate]].
    rewrite IH. tauto.
Qed.

(** Items that pass are skipped by the loop. *)
Lemma validate_header_items_skip (good rest : list (PyVal * PyVal)) :
  Forall (λ kv, isinstance_str kv.1 = true ∧ isinstance_str kv.2 = true) good →
  validate_header_items (good ++ rest) = validate_header_items rest.
Proof.
  induction 1 as [| [k v] good [Hk Hv] _ IH]; [reflexivity |].
  cbn [app validate_header_items]. cbn [fst snd] in Hk, Hv.
  by rewrite Hk, Hv.
Qed.

End MoreValidatorFacts.

(** X1: [validate_url] returns normally exactly for a string that starts
    with [http://] or with [https://]. *)
Theorem validate_url_returns_iff (url : PyVal) :
  ParameterValidator.validate_url url = Return tt ↔
  ∃ u, url = PyStr u
       ∧ (startswith u "http://" = true ∨ startswith u "https://" = true).
Proof.
  unfold ParameterValidator.validate_url.
  destruct url as [| b | n | f | u | l | d];
    try (split; [repeat case_if; discriminate | intros (u' & Hu & _); discriminate Hu]).
  cbn [truthy]. destruct (String.eqb_spec u "") as [-> | Hne]; cbn [negb].
  - split; [discriminate |]. intros (u' & Hu & Hp). injection Hu as <-.
    destruct Hp as [Hp | Hp]; discriminate Hp.
  - destruct (startswith u "http://") eqn:H1, (startswith u "https://") eqn:H2;
      cbn [orb negb]; split; intros H;
      try reflexivity; try discriminate H; try (exists u; split; [reflexivity | auto]).
    destruct H as (u' & Hu & Hp). injection Hu as <-.
    destruct Hp as [Hp | Hp]; congruence.
Qed.

(** X2: the three failures of [validate_url] come in a fixed order.  A value
    that is false in a test ([None], [0], the empty string, an empty list or
    dictionary) is reported as missing, whatever its type; a value that is
    true and no string is reported as not being a string; only a string that
    is not empty is reported for its prefix. *)
Theorem validate_url_errors (url : PyVal) :
  (truthy url = false →
   raises_with ValueError "URL is required and cannot be empty"
     (ParameterValidator.validate_url url))
  ∧ (truthy url = true → isinstance_str url = false →
     raises_with ValueError "URL must be a string"
       (ParameterValidator.validate_url url))
  ∧ (∀ u, url = PyStr u → u ≠ "" →
     startswith u "http://" = false → startswith u "https://" = false →
     raises_with ValueError "URL must start with 'http://' or 'https://'"
       (ParameterValidator.validate_url url)).
Proof.
  unfold raises_with, ParameterValidator.validate_url. split; [| split].
  - intros ->. reflexivity.
  - intros -> Hs. destruct url; try reflexivity. discriminate Hs.
  - intros u -> Hne H1 H2. cbn [truthy].
    destruct (String.eqb_spec u ""); [contradiction |].
    cbn [negb]. by rewrite H1, H2.
Qed.

(** X2 at [None], at the number 0, at the number 8080 and at an address
    without a scheme. *)
Lemma validate_url_errors_witness :
  raises_with ValueError "URL is required and cannot be empty"
    (ParameterValidator.validate_url PyNone)
  ∧ raises_with ValueError "URL is required and cannot be empty"
      (ParameterValidator.validate_url (PyInt 0))
  ∧ raises_with ValueError "URL must be a string"
      (ParameterValidator.validate_url (PyInt 8080))
  ∧ raises_with ValueError "URL must start with 'http://' or 'https://'"
      (ParameterValidator.validate_url (PyStr "example.com")).
Proof.
  split; [| split; [| split]].
  - apply (validate_url_errors PyNone). reflexivity.
  - apply (validate_url_errors (PyInt 0)). reflexivity.
  - apply (validate_url_errors (PyInt 8080)); reflexivity.
  - destruct (validate_url_errors (PyStr "example.com")) as (_ & _ & Hprefix).
    apply (Hprefix "example.com");
      [reflexivity | discriminate | reflexivity | reflexivity].
Defined.

(** X3: [validate_method] does not look at the case of the letters: a method
    is judged as its upper-case form is, and it passes exactly when that
    form is one of GET, POST, PUT, DELETE, PATCH, HEAD and OPTIONS.  A value
    that is no string is refused as such. *)
Theorem validate_method_case_insensitive (method : PyVal) :
  (∀ m, method = PyStr m →
     ParameterValidator.validate_method method
     = ParameterValidator.validate_method (PyStr (upper m))
     ∧ (ParameterValidator.validate_method method = Return tt ↔
        In (upper m) ParameterValidator.valid_methods))
  ∧ (isinstance_str method = false →
     raises_with ValueError "HTTP method must be a string"
       (ParameterValidator.validate_method method)).
Proof.
  split.
  - intros m ->. unfold ParameterValidator.validate_method.
    rewrite upper_twice. split; [reflexivity |].
    rewrite <- str_in_In. unfold raise_ValueError.
    destruct (str_in (upper m) ParameterValidator.valid_methods);
      cbn [negb]; split; congruence.
  - intros Hs. destruct method; try reflexivity. discriminate Hs.
Qed.

(** X3 at [get], [Patch] and the number 1. *)
Lemma validate_method_case_insensitive_witness :
  ParameterValidator.validate_method (PyStr "get") = Return tt
  ∧ ParameterValidator.validate_method (PyStr "Patch")
    = ParameterValidator.validate_method (PyStr "PATCH")
  ∧ raises (ParameterValidator.validate_method (PyInt 1)).
Proof.
  destruct (validate_method_case_insensitive (PyStr "get")) as [Hget _].
  destruct (validate_method_case_insensitive (PyStr "Patch")) as [Hpatch _].
  destruct (validate_method_case_insensitive (PyInt 1)) as [_ Hone].
  split; [| split].
  - destruct (Hget "get" eq_refl) as [_ Hiff]. apply Hiff. left. reflexivity.
  - destruct (Hpatch "Patch" eq_refl) as [Heq _]. exact Heq.
  - eexists. apply Hone. reflexivity.
Defined.

(** X4: [validate_headers] returns normally exactly for [None] and for a
    dictionary all of whose keys and values are strings; the empty
    dictionary is among them. *)
Theorem validate_headers_returns_iff (headers : PyVal) :
  ParameterValidator.validate_headers headers = Return tt ↔
  headers = PyNone
  ∨ ∃ items, headers = PyDict items
             ∧ Forall (λ kv, isinstance_str kv.1 = true
                             ∧ isinstance_str kv.2 = true) items.
Proof.
  destruct headers as [| b | n | f | s | l | items];
    cbn [ParameterValidator.validate_headers];
    try (split; [discriminate | intros [H | (i & H & _)]; discriminate H]).
  - split; [by left | reflexivity].
  - rewrite validate_header_items_returns. split.
    + intros H. right. by exists items.
    + intros [H | (i & H & HF)]; [discriminate H |]. by injection H as ->.
Qed.

(** X5: [validate_headers] reports the first item that is not a pair of
    strings, and its key before its value: after items that pass, a key that
    is no string is reported with its type, and otherwise the value is;
    what follows the item is not looked at. *)
Theorem validate_headers_first_offender
    (good rest : list (PyVal * PyVal)) (key value : PyVal) :
  Forall (λ kv, isinstance_str kv.1 = true ∧ isinstance_str kv.2 = true) good →
  (isinstance_str key = false →
   raises_with ValueError ("Header key must be string, got " +:+ type_str key)
     (ParameterValidator.validate_headers
        (PyDict (good ++ (key, value) :: rest))))
  ∧ (isinstance_str key = true → isinstance_str value = false →
     raises_with ValueError
       ("Header value must be string, got " +:+ type_str value)
       (ParameterValidator.validate_headers
          (PyDict (good ++ (key, value) :: rest)))).
Proof.
  intros Hgood. unfold raises_with.
  cbn [ParameterValidator.validate_headers].
  rewrite (validate_header_items_skip good _ Hgood).
  cbn [ParameterValidator.validate_header_items].
  split; [intros -> | intros -> ->]; reflexivity.
Qed.

(** X5 at a dictionary whose second item has the key 7 and whose third item
    has a value that is no string either. *)
Lemma validate_headers_first_offender_witness :
  raises_with ValueError "Header key must be string, got <class 'int'>"
    (ParameterValidator.validate_headers
       (PyDict [(PyStr "Accept", PyStr "text/html"); (PyInt 7, PyNone);
                (PyStr "X-Id", PyInt 3)])).
Proof.
  apply (validate_headers_first_offender
           [(PyStr "Accept", PyStr "text/html")] [(PyStr "X-Id", PyInt 3)]
           (PyInt 7) PyNone).
  - repeat constructor.
  - reflexivity.
Defined.

(** X6: [validate_params] accepts exactly the values that
    [validate_headers] accepts. *)
Theorem validate_params_like_headers (value : PyVal) :
  ParameterValidator.validate_params value = Return tt ↔
  ParameterValidator.validate_headers value = Return tt.
Proof.
  destruct value; cbn [ParameterValidator.validate_params
                        ParameterValidator.validate_headers];
    try (split; [reflexivity || discriminate | reflexivity || discriminate]).
  by rewrite validate_param_items_returns, validate_header_items_returns.
Qed.

(** X7: what [validate_js_strategy] lets through.  Every boolean passes; a
    string passes only if it is [DEFAULT], in these very letters; an integer
    passes only if it is 0 or 1; [None], lists and dictionaries never pass.
    Every failure carries the same message. *)
Theorem validate_js_strategy_outcomes
    (py : Interpreter) (x : PyVal) :
  (∀ b, x = PyBool b →
     ParameterValidator.validate_js_strategy py x = Return tt)
  ∧ (∀ s, x = PyStr s →
       (ParameterValidator.validate_js_strategy py x = Return tt
        ↔ s = "DEFAULT"))
  ∧ (∀ n, x = PyInt n →
       (ParameterValidator.validate_js_strategy py x = Return tt
        ↔ n = 0%Z ∨ n = 1%Z))
  ∧ (x = PyNone ∨ (∃ l, x = PyList l) ∨ (∃ d, x = PyDict d) →
     raises (ParameterValidator.validate_js_strategy py x))
  ∧ (raises (ParameterValidator.validate_js_strategy py x) →
     raises_with ValueError "js_strategy must be one of: DEFAULT, True, False"
       (ParameterValidator.validate_js_strategy py x)).
Proof.
  split; [| split; [| split; [| split]]].
  - intros [] ->; reflexivity.
  - intros s ->. apply validate_js_strategy_str.
  - intros n ->. rewrite validate_js_strategy_returns_iff. cbn [py_eq].
    rewrite !Z.eqb_eq. split; [intros [H | [H | H]] | intros [H | H]];
      try discriminate H; auto.
  - intros [-> | [[l ->] | [d ->]]]; eexists; reflexivity.
  - intros [e He]. unfold raises_with.
    unfold ParameterValidator.validate_js_strategy in *.
    destruct (negb _); [reflexivity | discriminate He].
Qed.

(** X7 at [True], at the strings [DEFAULT] and [default], at the integer 2
    and at [None]. *)
Lemma validate_js_strategy_outcomes_witness :
  ParameterValidator.validate_js_strategy default_interpreter (PyBool true) = Return tt
  ∧ ParameterValidator.validate_js_strategy default_interpreter (PyStr "DEFAULT")
    = Return tt
  ∧ ParameterValidator.validate_js_strategy default_interpreter (PyStr "default")
    ≠ Return tt
  ∧ ParameterValidator.validate_js_strategy default_interpreter (PyInt 2) ≠ Return tt
  ∧ raises_with ValueError "js_strategy must be one of: DEFAULT, True, False"
      (ParameterValidator.validate_js_strategy default_interpreter PyNone).
Proof.
  destruct (validate_js_strategy_outcomes default_interpreter (PyBool true))
    as (Hbool & _).
  destruct (validate_js_strategy_outcomes default_interpreter (PyStr "DEFAULT"))
    as (_ & Hupper & _).
  destruct (validate_js_strategy_outcomes default_interpreter (PyStr "default"))
    as (_ & Hlower & _).
  destruct (validate_js_strategy_outcomes default_interpreter (PyInt 2))
    as (_ & _ & Htwo & _).
  destruct (validate_js_strategy_outcomes default_interpreter PyNone)
    as (_ & _ & _ & Hnone & Hmsg).
  split; [exact (Hbool true eq_refl) |].
  split; [apply (Hupper "DEFAULT" eq_refl); reflexivity |].
  split; [intros H; apply (Hlower "default" eq_refl) in H; discriminate H |].
  split; [intros H; apply (Htwo 2%Z eq_refl) in H; destruct H as [H | H];
          discriminate H |].
  apply Hmsg, Hnone. by left.
Defined.

(** ** validate_request_params *)

Section RequestParamsFacts.

Import ParameterValidator AskPablos.

Variable py : Interpreter.

(** A check that returns lets the next one decide. *)
Lemma check_then (check : result unit) (next : result unit) :
  check = Return tt → (check;; next) = next.
Proof. intros ->. reflexivity. Qed.

(** A check that raises ends the sequence. *)
Lemma check_raise (check : result unit) (next : result unit) (e : exn) :
  check = Raise e → (check;; next) = Raise e.
Proof. intros ->. reflexivity. Qed.

Lemma check_returns (check next : result unit) :
  (check;; next) = Return tt ↔ check = Return tt ∧ next = Return tt.
Proof.
  destruct check as [[] | e].
  - change (Return tt;; next) with next. tauto.
  - change (Raise e;; next) with (@Raise unit e).
    split; [discriminate | intros [H _]; discriminate H].
Qed.

(** The last check of a request that passes is the browser-dependency rule. *)
Lemma validate_request_params_browser
    (url method headers params browser wait_for_load screenshot
       js_strategy timeout : PyVal) (kwargs : gmap string PyVal) :
  validate_request_params py url method headers params browser
    wait_for_load screenshot js_strategy timeout kwargs = Return tt →
  validate_browser_dependencies py browser wait_for_load screenshot
    js_strategy = Return tt.
Proof.
  unfold validate_request_params. rewrite !check_returns. tauto.
Qed.

Variable client_request :
  PyVal → PyVal → PyVal → gmap string PyVal → PyVal → result ResponseData.

(** Where the validator lets a call through, so does the guard of [get]. *)
Lemma get_after_validation
    (url params headers browser rotate_proxy wait_for_load screenshot
       js_strategy timeout : PyVal) (options : gmap string PyVal) :
  validate_browser_dependencies py browser wait_for_load screenshot
    js_strategy = Return tt →
  get client_request url params headers browser rotate_proxy wait_for_load
    screenshot js_strategy timeout options
  = get_delegate client_request url params headers browser rotate_proxy
      wait_for_load screenshot js_strategy timeout options.
Proof.
  rewrite validate_browser_dependencies_rule, get_rule.
  destruct (truthy browser); [reflexivity |].
  destruct (BrowserRule.offending _ _ _); [reflexivity |].
  destruct (if py_ne _ _ then _ else _); discriminate.
Qed.

End RequestParamsFacts.

(** X8: [validate_request_params] returns normally exactly when each of the
    seven validators does on its argument; the extra keyword arguments play
    no part. *)
Theorem validate_request_params_returns_iff
    (py : Interpreter)
    (url method headers params browser wait_for_load screenshot
       js_strategy timeout : PyVal) (kwargs : gmap string PyVal) :
  ParameterValidator.validate_request_params py url method headers
    params browser wait_for_load screenshot js_strategy timeout kwargs
  = Return tt ↔
  ParameterValidator.validate_url url = Return tt
  ∧ ParameterValidator.validate_method method = Return tt
  ∧ ParameterValidator.validate_headers headers = Return tt
  ∧ ParameterValidator.validate_params params = Return tt
  ∧ ParameterValidator.validate_js_strategy py js_strategy = Return tt
  ∧ ParameterValidator.validate_timeout timeout = Return tt
  ∧ ParameterValidator.validate_browser_dependencies py browser
      wait_for_load screenshot js_strategy = Return tt.
Proof.
  unfold ParameterValidator.validate_request_params.
  rewrite !check_returns. tauto.
Qed.

(** X9: [validate_request_params] fails with the exception of the first
    validator that fails, in the order url, method, headers, params,
    js_strategy, timeout, browser dependencies; the later arguments are not
    examined.  So a strategy that is not allowed is reported as such also
    where the browser rule would object to it, and a bad timeout is reported
    before the browser rule is. *)
Theorem validate_request_params_first_error
    (py : Interpreter)
    (url method headers params browser wait_for_load screenshot
       js_strategy timeout : PyVal) (kwargs : gmap string PyVal) (e : exn) :
  let validated :=
    ParameterValidator.validate_request_params py url method headers
      params browser wait_for_load screenshot js_strategy timeout kwargs in
  (ParameterValidator.validate_url url = Raise e → validated = Raise e)
  ∧ (ParameterValidator.validate_url url = Return tt →
     ParameterValidator.validate_method method = Raise e →
     validated = Raise e)
  ∧ (ParameterValidator.validate_url url = Return tt →
     ParameterValidator.validate_method method = Return tt →
     ParameterValidator.validate_headers headers = Raise e →
     validated = Raise e)
  ∧ (ParameterValidator.validate_url url = Return tt →
     ParameterValidator.validate_method method = Return tt →
     ParameterValidator.validate_headers headers = Return tt →
     ParameterValidator.validate_params params = Raise e →
     validated = Raise e)
  ∧ (ParameterValidator.validate_url url = Return tt →
     ParameterValidator.validate_method method = Return tt →
     ParameterValidator.validate_headers headers = Return tt →
     ParameterValidator.validate_params params = Return tt →
     ParameterValidator.validate_js_strategy py js_strategy = Raise e →
     validated = Raise e)
  ∧ (ParameterValidator.validate_url url = Return tt →
     ParameterValidator.validate_method method = Return tt →
     ParameterValidator.validate_headers headers = Return tt →
     ParameterValidator.validate_params params = Return tt →
     ParameterValidator.validate_js_strategy py js_strategy = Return tt →
     ParameterValidator.validate_timeout timeout = Raise e →
     validated = Raise e)
  ∧ (ParameterValidator.validate_url url = Return tt →
     ParameterValidator.validate_method method = Return tt →
     ParameterValidator.validate_headers headers = Return tt →
     ParameterValidator.validate_params params = Return tt →
     ParameterValidator.validate_js_strategy py js_strategy = Return tt →
     ParameterValidator.validate_timeout timeout = Return tt →
     validated
     = ParameterValidator.validate_browser_dependencies py browser
         wait_for_load screenshot js_strategy).
Proof.
  cbn zeta. unfold ParameterValidator.validate_request_params.
  repeat split; intros;
    repeat (rewrite check_then by assumption);
    first [reflexivity | by apply check_raise].
Qed.

(** X9 at a call without a browser whose strategy is the string [FAST] and
    whose timeout is 0: the strategy is what is reported. *)
Lemma validate_request_params_first_error_witness :
  ParameterValidator.validate_request_params default_interpreter
    (PyStr "https://example.com") (PyStr "GET") PyNone PyNone (PyBool false)
    (PyBool false) (PyBool false) (PyStr "FAST") (PyInt 0) ∅
  = raise_ValueError "js_strategy must be one of: DEFAULT, True, False".
Proof.
  destruct (validate_request_params_first_error default_interpreter
              (PyStr "https://example.com") (PyStr "GET") PyNone PyNone
              (PyBool false) (PyBool false) (PyBool false) (PyStr "FAST")
              (PyInt 0) ∅
              (mk_exn ValueError
                 "js_strategy must be one of: DEFAULT, True, False"))
    as (_ & _ & _ & _ & Hstrategy & _).
  apply Hstrategy; reflexivity.
Defined.

(** X10: with every optional argument at the default of the signature
    (method GET, no headers, no params, no browser, no waiting, no
    screenshot, the default strategy, a timeout of 30), a request is judged
    by its URL alone. *)
Theorem validate_request_params_defaults
    (py : Interpreter) (url : PyVal)
    (kwargs : gmap string PyVal) :
  ParameterValidator.validate_request_params py url (PyStr "GET")
    PyNone PyNone (PyBool false) (PyBool false) (PyBool false)
    (PyStr "DEFAULT") (PyInt 30) kwargs
  = ParameterValidator.validate_url url.
Proof.
  unfold ParameterValidator.validate_request_params.
  destruct (ParameterValidator.validate_url url) as [[] | e]; reflexivity.
Qed.

(** X11: a call that [validate_request_params] lets through is not stopped
    by [get]: with the same arguments [get] calls the client exactly once,
    with the arguments as they came and the options built from them, and
    hands back the client's outcome. *)
Theorem validated_request_reaches_client
    (py : Interpreter)
    (client_request :
       PyVal → PyVal → PyVal → gmap string PyVal → PyVal
       → result AskPablos.ResponseData)
    (url method headers params browser rotate_proxy wait_for_load screenshot
       js_strategy timeout : PyVal)
    (kwargs options : gmap string PyVal) :
  ParameterValidator.validate_request_params py url method headers
    params browser wait_for_load screenshot js_strategy timeout kwargs
  = Return tt →
  let fetched :=
    AskPablos.get client_request url params headers browser rotate_proxy
      wait_for_load screenshot js_strategy timeout options in
  let proxy_options :=
    Utils.build_proxy_options browser rotate_proxy wait_for_load screenshot
      js_strategy options in
  fetched.1 = client_request url headers params proxy_options timeout
  ∧ List.filter AskPablos.is_Request fetched.2
    = [AskPablos.Request url headers params proxy_options timeout].
Proof.
  intros Hvalid. cbn zeta.
  apply validate_request_params_browser in Hvalid.
  rewrite (get_after_validation py client_request _ _ _ _ _ _ _ _ _ _ Hvalid).
  apply get_delegate_calls_once.
Qed.

(** X11 at a valid request for a page rendered in a browser. *)
Lemma validated_request_reaches_client_witness :
  List.filter AskPablos.is_Request
    (AskPablos.get AskPablos.unreachable_client
       (PyStr "https://example.com") PyNone PyNone (PyBool true) (PyBool false)
       (PyBool true) (PyBool false) (PyBool true) (PyInt 60) ∅).2
  = [AskPablos.Request (PyStr "https://example.com") PyNone PyNone
       (Utils.build_proxy_options (PyBool true) (PyBool false) (PyBool true)
          (PyBool false) (PyBool true) ∅)
       (PyInt 60)].
Proof.
  apply (validated_request_reaches_client default_interpreter
           AskPablos.unreachable_client
           (PyStr "https://example.com") (PyStr "GET") PyNone PyNone
           (PyBool true) (PyBool false) (PyBool true) (PyBool false)
           (PyBool true) (PyInt 60) ∅ ∅).
  reflexivity.
Defined.

(** ** build_proxy_options *)

Section MoreOptionsFacts.

Import Utils.

Lemma not_parameter_name (k : string) :
  k ∉ parameter_names ↔
  k ≠ "browser" ∧ k ≠ "rotate_proxy" ∧ k ≠ "wait_for_load"
  ∧ k ≠ "screenshot" ∧ k ≠ "js_strategy".
Proof.
  unfold parameter_names. rewrite !not_elem_of_cons.
  pose proof (not_elem_of_nil k). tauto.
Qed.

(** A key that is no parameter name is looked up in [kwargs]. *)
Lemma build_proxy_options_other (browser r w s j : PyVal)
    (kwargs : gmap string PyVal) (k : string) :
  k ∉ parameter_names →
  build_proxy_options browser r w s j kwargs !! k = kwargs !! k.
Proof.
  rewrite not_parameter_name. intros (Hb & Hr & Hw & Hs & Hj).
  unfold build_proxy_options, dict_update.
  destruct (kwargs !! k) as [v |] eqn:Hk.
  - by apply lookup_union_Some_l.
  - rewrite lookup_union_r by exact Hk.
    destruct (truthy browser);
      rewrite ?lookup_insert_ne by congruence; apply lookup_empty.
Qed.

(** A parameter name is looked up among the named entries. *)
Lemma build_proxy_options_named (browser r w s j : PyVal)
    (kwargs : gmap string PyVal) :
  extra_keywords kwargs →
  build_proxy_options browser r w s j kwargs !! "browser" = Some browser
  ∧ build_proxy_options browser r w s j kwargs !! "rotate_proxy" = Some r
  ∧ (truthy browser = true →
     build_proxy_options browser r w s j kwargs !! "wait_for_load" = Some w
     ∧ build_proxy_options browser r w s j kwargs !! "screenshot" = Some s
     ∧ build_proxy_options browser r w s j kwargs !! "js_strategy" = Some j).
Proof.
  intros Hkw. unfold build_proxy_options.
  assert (Hnone : ∀ name, name ∈ parameter_names → ∀ options,
            dict_update options kwargs !! name = options !! name).
  { intros name Hname options. apply dict_update_lookup_None, Hkw, Hname. }
  assert (Hb : "browser" ∈ parameter_names) by (unfold parameter_names; left).
  assert (Hr : "rotate_proxy" ∈ parameter_names)
    by (unfold parameter_names; right; left).
  assert (Hw : "wait_for_load" ∈ parameter_names)
    by (unfold parameter_names; do 2 right; left).
  assert (Hs : "screenshot" ∈ parameter_names)
    by (unfold parameter_names; do 3 right; left).
  assert (Hj : "js_strategy" ∈ parameter_names)
    by (unfold parameter_names; do 4 right; left).
  rewrite !Hnone by assumption.
  destruct (truthy browser); repeat split; try reflexivity; try discriminate.
Qed.

Lemma extra_keywords_disjoint (kwargs options : gmap string PyVal) :
  extra_keywords kwargs → dom options ⊆ list_to_set parameter_names →
  kwargs ##ₘ options.
Proof.
  intros Hkw Hdom. apply map_disjoint_alt. intros k.
  destruct (decide (k ∈ parameter_names)) as [Hin | Hout].
  - left. by apply Hkw.
  - right. apply not_elem_of_dom. intros Hk. apply Hout.
    apply Hdom in Hk. by apply elem_of_list_to_set in Hk.
Qed.

Lemma bind_keywords_other (kw : gmap string PyVal) (k : string) :
  k ∉ parameter_names → (bind_keywords kw).2 !! k = kw !! k.
Proof.
  rewrite not_parameter_name. intros (Hb & Hr & Hw & Hs & Hj).
  unfold bind_keywords, parameter_names. cbn [snd foldr].
  by rewrite !lookup_delete_ne by congruence.
Qed.

End MoreOptionsFacts.

(** X12: what [build_proxy_options] returns, key by key, when [**kwargs]
    holds no parameter name (as it cannot in a call): the keys browser and
    rotate_proxy hold the arguments as they were passed, with a browser so
    do wait_for_load, screenshot and js_strategy, and every other key holds
    what [kwargs] holds for it.  No named value is overwritten. *)
Theorem build_proxy_options_lookup
    (browser rotate_proxy wait_for_load screenshot js_strategy : PyVal)
    (kwargs : gmap string PyVal) :
  Utils.extra_keywords kwargs →
  let options :=
    Utils.build_proxy_options browser rotate_proxy wait_for_load screenshot
      js_strategy kwargs in
  options !! "browser" = Some browser
  ∧ options !! "rotate_proxy" = Some rotate_proxy
  ∧ (truthy browser = true →
     options !! "wait_for_load" = Some wait_for_load
     ∧ options !! "screenshot" = Some screenshot
     ∧ options !! "js_strategy" = Some js_strategy)
  ∧ (∀ k, k ∉ Utils.parameter_names → options !! k = kwargs !! k).
Proof.
  intros Hkw. cbn zeta.
  destruct (build_proxy_options_named browser rotate_proxy wait_for_load
              screenshot js_strategy kwargs Hkw) as (Hb & Hr & Hrest).
  split; [exact Hb |]. split; [exact Hr |]. split; [exact Hrest |].
  intros k. apply build_proxy_options_other.
Qed.

(** X12 at a call with a browser, the number 1 for [wait_for_load] and a
    user agent among the extra keywords: the number is stored as it is. *)
Lemma build_proxy_options_lookup_witness :
  let options :=
    Utils.build_proxy_options (PyBool true) (PyBool false) (PyInt 1)
      (PyBool false) (PyStr "DEFAULT") {["user_agent" := PyStr "curl"]} in
  options !! "wait_for_load" = Some (PyInt 1)
  ∧ options !! "user_agent" = Some (PyStr "curl").
Proof.
  assert (Hkw : Utils.extra_keywords {["user_agent" := PyStr "curl"]}).
  { intros name Hin. unfold Utils.parameter_names in Hin.
    rewrite !elem_of_cons, elem_of_nil in Hin.
    destruct Hin as [-> | [-> | [-> | [-> | [-> | []]]]]]; reflexivity. }
  destruct (build_proxy_options_lookup (PyBool true) (PyBool false) (PyInt 1)
              (PyBool false) (PyStr "DEFAULT")
              {["user_agent" := PyStr "curl"]} Hkw)
    as (_ & _ & Hbrowser & Hother).
  split.
  - apply Hbrowser. reflexivity.
  - rewrite Hother; [reflexivity |].
    unfold Utils.parameter_names. rewrite !not_elem_of_cons.
    repeat split; try discriminate. apply not_elem_of_nil.
Defined.

(** X13: the number of entries [build_proxy_options] returns, when
    [**kwargs] holds no parameter name: two more than [kwargs] has without a
    browser, five more with one. *)
Theorem build_proxy_options_size
    (browser rotate_proxy wait_for_load screenshot js_strategy : PyVal)
    (kwargs : gmap string PyVal) :
  Utils.extra_keywords kwargs →
  size (Utils.build_proxy_options browser rotate_proxy wait_for_load
          screenshot js_strategy kwargs)
  = ((if truthy browser then 5 else 2) + size kwargs)%nat.
Proof.
  intros Hkw. unfold Utils.build_proxy_options, Utils.dict_update.
  rewrite map_size_disj_union.
  - rewrite Nat.add_comm. f_equal. destruct (truthy browser); reflexivity.
  - apply extra_keywords_disjoint; [exact Hkw |].
    destruct (truthy browser); unfold Utils.parameter_names;
      rewrite !dom_insert_L, dom_empty_L; cbn [list_to_set];
      intros k; rewrite !elem_of_union, !elem_of_singleton; tauto.
Qed.

(** X13 at a call without a browser and with two extra keywords. *)
Lemma build_proxy_options_size_witness :
  size (Utils.build_proxy_options (PyBool false) (PyBool true) (PyBool true)
          (PyBool true) (PyBool true)
          (<["cookies" := PyStr "a=b"]> {["user_agent" := PyStr "curl"]}))
  = 4%nat.
Proof.
  rewrite (build_proxy_options_size (PyBool false) (PyBool true) (PyBool true)
             (PyBool true) (PyBool true)
             (<["cookies" := PyStr "a=b"]> {["user_agent" := PyStr "curl"]}));
    [reflexivity |].
  intros name Hin. unfold Utils.parameter_names in Hin.
  rewrite !elem_of_cons, elem_of_nil in Hin.
  destruct Hin as [-> | [-> | [-> | [-> | [-> | []]]]]]; reflexivity.
Defined.

(** X14: a call of [build_proxy_options] by keyword arguments.  The entry
    for browser is the argument of that name, or [False] without one; the
    entry for rotate_proxy is the argument, or [True] without one; a keyword
    that is no parameter name arrives in the result as it was passed. *)
Theorem call_build_proxy_options_lookup (kw : gmap string PyVal) :
  Utils.call_build_proxy_options kw !! "browser"
  = Some (default (PyBool false) (kw !! "browser"))
  ∧ Utils.call_build_proxy_options kw !! "rotate_proxy"
    = Some (default (PyBool true) (kw !! "rotate_proxy"))
  ∧ (∀ k, k ∉ Utils.parameter_names →
       Utils.call_build_proxy_options kw !! k = kw !! k).
Proof.
  unfold Utils.call_build_proxy_options.
  pose proof (bind_keywords_extra kw) as Hextra.
  pose proof (bind_keywords_other kw) as Hother.
  destruct (Utils.bind_keywords kw) as [[[[[b r] w] s] j] rest] eqn:Hbind.
  cbn [snd] in Hextra, Hother.
  destruct (build_proxy_options_named b r w s j rest Hextra) as (Hb & Hr & _).
  unfold Utils.bind_keywords in Hbind. injection Hbind as <- <- _ _ _ _.
  split; [exact Hb |]. split; [exact Hr |].
  intros k Hk. rewrite build_proxy_options_other by exact Hk. by apply Hother.
Qed.

(** ** AskPablos.get and validate_browser_dependencies *)

(** X15: what a call of [get] does, in full.  Either the guard fails: a
    [ValueError], and nothing is sent or logged.  Or the client is called
    once and nothing is logged: [get] hands back what the client returned,
    or an exception outside the [AskPablosError] family that it raised.  Or
    the client is called once and raises an exception of that family: [get]
    writes one line, "GET request failed: " and the text of the exception,
    to the error log and raises the same exception.  So [get] never calls
    the client twice, never logs before or without a call, and never
    replaces an exception. *)
Theorem get_outcomes
    (client_request :
       PyVal → PyVal → PyVal → gmap string PyVal → PyVal
       → result AskPablos.ResponseData)
    (url params headers browser rotate_proxy wait_for_load screenshot
       js_strategy timeout : PyVal)
    (options : gmap string PyVal) :
  let fetched :=
    AskPablos.get client_request url params headers browser rotate_proxy
      wait_for_load screenshot js_strategy timeout options in
  let proxy_options :=
    Utils.build_proxy_options browser rotate_proxy wait_for_load screenshot
      js_strategy options in
  let answer := client_request url headers params proxy_options timeout in
  let call :=
    AskPablos.Request url headers params proxy_options timeout in
  (∃ msg, fetched = (raise_ValueError msg, []))
  ∨ (fetched = (answer, [call])
     ∧ ∀ e, answer = Raise e → is_AskPablosError (exn_class e) = false)
  ∨ (∃ e, answer = Raise e ∧ is_AskPablosError (exn_class e) = true
          ∧ fetched
            = (Raise e,
               [call;
                AskPablos.LogError ("GET request failed: " +:+ exn_msg e)])).
Proof.
  cbn zeta. rewrite get_rule.
  assert (Hdelegate :
    let delegated :=
      AskPablos.get_delegate client_request url params headers browser
        rotate_proxy wait_for_load screenshot js_strategy timeout options in
    let proxy_options :=
      Utils.build_proxy_options browser rotate_proxy wait_for_load screenshot
        js_strategy options in
    let answer := client_request url headers params proxy_options timeout in
    let call := AskPablos.Request url headers params proxy_options timeout in
    (delegated = (answer, [call])
     ∧ ∀ e, answer = Raise e → is_AskPablosError (exn_class e) = false)
    ∨ (∃ e, answer = Raise e ∧ is_AskPablosError (exn_class e) = true
            ∧ delegated
              = (Raise e,
                 [call;
                  AskPablos.LogError ("GET request failed: " +:+ exn_msg e)]))).
  { cbn zeta. unfold AskPablos.get_delegate.
    destruct (client_request _ _ _ _ _) as [response | e].
    - left. split; [reflexivity | discriminate].
    - destruct (is_AskPablosError (exn_class e)) eqn:He.
      + right. exists e. auto.
      + left. split; [reflexivity |]. intros e' [= <-]. exact He. }
  cbn zeta in Hdelegate.
  destruct (truthy browser); [right; exact Hdelegate |].
  destruct (BrowserRule.offending _ _ _); [right; exact Hdelegate |].
  left. eexists. reflexivity.
Qed.

(** X16: the options [get] sends.  When the extra options hold no parameter
    name, every request that [get] makes carries the keys wait_for_load,
    screenshot and js_strategy if [browser] is true, and none of them if it
    is false. *)
Theorem get_sends_browser_keys_iff
    (client_request :
       PyVal → PyVal → PyVal → gmap string PyVal → PyVal
       → result AskPablos.ResponseData)
    (url params headers browser rotate_proxy wait_for_load screenshot
       js_strategy timeout : PyVal)
    (options : gmap string PyVal)
    (url' headers' params' timeout' : PyVal) (sent : gmap string PyVal)
    (name : string) :
  Utils.extra_keywords options →
  In (AskPablos.Request url' headers' params' sent timeout')
     (AskPablos.get client_request url params headers browser rotate_proxy
        wait_for_load screenshot js_strategy timeout options).2 →
  name ∈ Utils.browser_only_keys →
  (is_Some (sent !! name) ↔ truthy browser = true).
Proof.
  intros Hkw Hin Hname.
  assert (Hsent : sent = Utils.build_proxy_options browser rotate_proxy
                           wait_for_load screenshot js_strategy options).
  { rewrite get_rule in Hin.
    assert (Hdelegate :
      In (AskPablos.Request url' headers' params' sent timeout')
         (AskPablos.get_delegate client_request url params headers browser
            rotate_proxy wait_for_load screenshot js_strategy timeout
            options).2).
    { destruct (truthy browser); [exact Hin |].
      destruct (BrowserRule.offending _ _ _); [exact Hin | destruct Hin]. }
    pose proof (get_delegate_calls_once client_request url params headers
                  browser rotate_proxy wait_for_load screenshot js_strategy
                  timeout options) as [_ Hcalls].
    cbn zeta in Hcalls.
    assert (Hfiltered :
      In (AskPablos.Request url' headers' params' sent timeout')
         (List.filter AskPablos.is_Request
            (AskPablos.get_delegate client_request url params headers browser
               rotate_proxy wait_for_load screenshot js_strategy timeout
               options).2))
      by (apply filter_In; split; [exact Hdelegate | reflexivity]).
    rewrite Hcalls in Hfiltered.
    destruct Hfiltered as [Heq | []]. by injection Heq. }
  subst sent. destruct (truthy browser) eqn:Hb.
  - split; [reflexivity | intros _].
    destruct (build_proxy_options_named browser rotate_proxy wait_for_load
                screenshot js_strategy options Hkw) as (_ & _ & Hthree).
    destruct (Hthree Hb) as (Hw & Hs & Hj).
    unfold Utils.browser_only_keys in Hname.
    rewrite !elem_of_cons, elem_of_nil in Hname.
    destruct Hname as [-> | [-> | [-> | []]]]; eauto.
  - rewrite (build_proxy_options_falsy browser rotate_proxy wait_for_load
               screenshot js_strategy options name Hb Hkw Hname).
    split; [intros [v Hv]; discriminate Hv | discriminate].
Qed.

(** X16 at a request without a browser: the options that are sent have no
    key screenshot. *)
Lemma get_sends_browser_keys_iff_witness :
  is_Some
    (Utils.build_proxy_options (PyBool false) (PyBool false) (PyBool false)
       (PyBool false) (PyStr "DEFAULT") ∅ !! "screenshot")
  ↔ truthy (PyBool false) = true.
Proof.
  apply (get_sends_browser_keys_iff AskPablos.unreachable_client
           (PyStr "https://example.com") PyNone PyNone (PyBool false)
           (PyBool false) (PyBool false) (PyBool false) (PyStr "DEFAULT")
           (PyInt 30) ∅
           (PyStr "https://example.com") PyNone PyNone (PyInt 30)
           (Utils.build_proxy_options (PyBool false) (PyBool false)
              (PyBool false) (PyBool false) (PyStr "DEFAULT") ∅)
           "screenshot").
  - intros name _. reflexivity.
  - left. reflexivity.
  - right. left.
Defined.

(** X17: [validate_browser_dependencies] returns normally exactly when
    [browser] is true in a test, or [wait_for_load] and [screenshot] are
    both false in a test and [js_strategy] equals ["DEFAULT"].  The flags
    count by their truth value, so a number or a string in their place
    counts too. *)
Theorem validate_browser_dependencies_returns_iff
    (py : Interpreter)
    (browser wait_for_load screenshot js_strategy : PyVal) :
  ParameterValidator.validate_browser_dependencies py browser
    wait_for_load screenshot js_strategy = Return tt ↔
  truthy browser = true
  ∨ (truthy wait_for_load = false ∧ truthy screenshot = false
     ∧ py_eq js_strategy (PyStr "DEFAULT") = true).
Proof.
  unfold ParameterValidator.validate_browser_dependencies, py_ne.
  destruct (truthy browser); [split; auto |].
  destruct (truthy wait_for_load), (truthy screenshot),
    (py_eq js_strategy (PyStr "DEFAULT")); cbn [negb];
    try destruct (py_str py js_strategy); cbn; split; intros H;
    try reflexivity; try discriminate H; auto;
    destruct H as [H | (H1 & H2 & H3)]; discriminate.
Qed.

(** ** configure_logging *)



(** ** The two messages of the browser-dependency rule *)

(** X19: when the rule is broken, [get] and [validate_browser_dependencies]
    raise with the same message exactly when [js_strategy] is the default
    or is written [True] by [str]; for any other strategy the facade's
    message names a value that was not passed. *)
Theorem guard_messages_agree
    (py : Interpreter)
    (client_request :
       PyVal → PyVal → PyVal → gmap string PyVal → PyVal
       → result AskPablos.ResponseData)
    (url params headers browser rotate_proxy wait_for_load screenshot
       js_strategy timeout : PyVal)
    (options : gmap string PyVal) (e : exn) :
  ParameterValidator.validate_browser_dependencies py browser
    wait_for_load screenshot js_strategy = Raise e →
  ((AskPablos.get client_request url params headers browser rotate_proxy
      wait_for_load screenshot js_strategy timeout options).1 = Raise e
   ↔ py_eq js_strategy (PyStr "DEFAULT") = true
     ∨ py_str py js_strategy = Return "True").
Proof.
  unfold ParameterValidator.validate_browser_dependencies, AskPablos.get, py_ne.
  destruct (truthy browser); [discriminate |].
  destruct (py_eq js_strategy (PyStr "DEFAULT")); cbn [negb].
  - destruct (truthy wait_for_load), (truthy screenshot); simpl;
      intros [= <-]; split; try (intros _; left; reflexivity); reflexivity.
  - destruct (py_str py js_strategy) as [text | e'] eqn:Hstr.
    + destruct (truthy wait_for_load), (truthy screenshot); simpl;
        intros [= <-]; split;
        try (intros [= H]; right; rewrite H; reflexivity);
        try (intros [H | H]; [discriminate H | injection H as ->; reflexivity]).
    + assert (Hmsg : ∀ msg,
                mk_exn ValueError
                  ("browser=True is required for these actions: " +:+ msg)
                ≠ e').
      { intros msg <-.
        destruct (py_str_raises py js_strategy _ Hstr) as [H | H];
          simpl in H; discriminate H. }
      destruct (truthy wait_for_load), (truthy screenshot);
        cbn [mbind result_bind]; intros [= <-]; split;
        try (intros [H | H]; discriminate H);
        intros [= H]; exfalso; eapply Hmsg; exact H.
Qed.

(** X19 at a call for a screenshot without a browser and with the strategy
    [True]: both checks raise with the same message. *)
Lemma guard_messages_agree_witness :
  (AskPablos.get AskPablos.unreachable_client
     (PyStr "https://example.com") PyNone PyNone (PyBool false) (PyBool false)
     (PyBool false) (PyBool true) (PyBool true) (PyInt 30) ∅).1
  = Raise
      (mk_exn ValueError
         "browser=True is required for these actions: screenshot=True, js_strategy=True").
Proof.
  apply (guard_messages_agree default_interpreter AskPablos.unreachable_client
           (PyStr "https://example.com") PyNone PyNone (PyBool false)
           (PyBool false) (PyBool false) (PyBool true) (PyBool true)
           (PyInt 30) ∅).
  - reflexivity.
  - right. reflexivity.
Defined.
